(** * GraphAr PySpark v2: schema models and the YAML bridge over Spark

    A shallow embedding of [graphar_pyspark/v2/models.py] and
    [graphar_pyspark/v2/helpers.py].

    - [models.py] declares three string-backed enumerations, three nested
      models (Property, PropertyGroup, AdjList) and three documents
      (VertexInfo, EdgeInfo, GraphInfo) that inherit [from_yaml] and
      [to_yaml] from YAMLSerializable.
    - [helpers.py] holds the two functions that do the work:
      [read_yaml_from_any] and [write_yaml_to_any].

    The libraries the code calls are modelled as follows.
    - Python built-ins ([str.split], [str.join], [tuple]) are functions on
      [string]; a character is one [ascii].
    - pydantic: field validation is written out per declared field type;
      the coercions the library applies to a value that does not already
      have the declared type are an interface ([Lax]).
    - PyYAML: the representer (which decides whether an object can be
      dumped at all) is written out; the text it emits and the loader are
      an interface ([Yaml]).  A reference implementation of both
      interfaces, for the block-style subset that the schema documents
      use, lets every example run.
    - Spark: a session is the file system it reads and writes, a finite
      map from locations to the lines stored there by the text data
      source. *)

From Stdlib Require Import ZArith Ascii String.
From stdpp Require Import base option list strings pretty gmap.

Local Open Scope Z_scope.

(** ** Python values *)

Module Py.

(** [sep.join(xs)]. *)
Definition join (sep : string) (xs : list string) : string :=
String.concat sep xs.

(** [s.split(sep)] for a separator of one character.  The result is never
  empty: [''.split(sep) = ['']], and a text ending with the separator
  yields a last element ['']. *)
Fixpoint split (sep : ascii) (s : string) : list string :=
match s with
| EmptyString => [EmptyString]
| String c s' =>
    if Ascii.eqb c sep then EmptyString :: split sep s'
    else match split sep s' with
         | [] => [String c EmptyString]
         | w :: ws => String c w :: ws
         end
end.

(** [tuple(s)] of a string: the tuple of its characters, each a string of
  length one. *)
Fixpoint tuple (s : string) : list string :=
match s with
| EmptyString => []
| String c s' => String c EmptyString :: tuple s'
end.

(** The one-element tuple [(s,)]. *)
Definition singleton (s : string) : list string := [s].

Definition newline : ascii := "010"%char.
Definition nl : string := String newline EmptyString.

End Py.

(** Exceptions that can leave the two helper functions. *)
Inductive exn : Set :=
  | AnalysisException   (* pyspark: path missing, text source misuse *)
  | ValueError          (* pyspark: empty data set, no such column in a row *)
  | Py4JJavaError       (* pyspark: a job fails while it runs *)
  | YAMLError           (* yaml: the text is not well-formed YAML *)
  | RepresenterError    (* yaml: safe_dump meets an object it cannot represent *)
  | ValidationError.    (* pydantic: the value does not fit the model *)

Inductive result (A : Type) : Type :=
  | Ok (a : A)
  | Raise (e : exn).
Arguments Ok {A} a.
Arguments Raise {A} e.

Global Instance result_ret : MRet result := @Ok.
Global Instance result_bind : MBind result := λ A B f r,
  match r with
  | Ok a => f a
  | Raise e => Raise e
  end.
Global Instance result_fmap : FMap result := λ A B f r,
  match r with
  | Ok a => Ok (f a)
  | Raise e => Raise e
  end.

(** An [option] read as a computation that raises [e] on [None]. *)
Definition or_raise {A} (e : exn) (o : option A) : result A :=
  match o with
  | Some a => Ok a
  | None => Raise e
  end.

(** [o] yields a value. *)
Definition has {A} (o : option A) : bool :=
  match o with
  | Some _ => true
  | None => false
  end.

(** ** Enumerations ([models.py], lines 31-57) *)

Inductive GarType : Set := BOOl | INT32 | INT64 | FLOAT | DOUBLE | STRING | LIST.
Inductive FileType : Set := CSV | PARQUET | ORC.
Inductive AdjListType : Set :=
  | UNORDERED_BY_SOURCE | UNORDERED_BY_DEST | ORDERED_BY_SOURCE | ORDERED_BY_DEST.

Definition GarType_value (g : GarType) : string :=
  match g with
  | BOOl => "bool"
  | INT32 => "int32"
  | INT64 => "int64"
  | FLOAT => "float"
  | DOUBLE => "double"
  | STRING => "string"
  | LIST => "list"
  end.

Definition FileType_value (f : FileType) : string :=
  match f with
  | CSV => "csv"
  | PARQUET => "parquet"
  | ORC => "orc"
  end.

Definition AdjListType_value (a : AdjListType) : string :=
  match a with
  | UNORDERED_BY_SOURCE => "unordered_by_source"
  | UNORDERED_BY_DEST => "unordered_by_dest"
  | ORDERED_BY_SOURCE => "ordered_by_source"
  | ORDERED_BY_DEST => "ordered_by_dest"
  end.

Definition GarType_members : list GarType :=
  [BOOl; INT32; INT64; FLOAT; DOUBLE; STRING; LIST].
Definition FileType_members : list FileType := [CSV; PARQUET; ORC].
Definition AdjListType_members : list AdjListType :=
  [UNORDERED_BY_SOURCE; UNORDERED_BY_DEST; ORDERED_BY_SOURCE; ORDERED_BY_DEST].

(** The closed sets of literals. *)
Definition GarType_literals : list string := GarType_value <$> GarType_members.
Definition FileType_literals : list string := FileType_value <$> FileType_members.
Definition AdjListType_literals : list string :=
  AdjListType_value <$> AdjListType_members.

(** [Enum(value)]: the member whose value equals the given string. *)
Definition by_value {E} (value : E → string) (members : list E) (s : string)
    : option E :=
  List.find (λ m, String.eqb (value m) s) members.

(** A member of one of the three enumeration classes, as a Python object. *)
Inductive enum_member : Set :=
  | EGarType (g : GarType)
  | EFileType (f : FileType)
  | EAdjListType (a : AdjListType).

Definition enum_value (e : enum_member) : string :=
  match e with
  | EGarType g => GarType_value g
  | EFileType f => FileType_value f
  | EAdjListType a => AdjListType_value a
  end.

(** The Python objects that flow through the helpers: what [yaml.safe_load]
    builds from a document, what [model_dump(mode="python")] returns, and
    the keyword arguments of a direct construction.  Dictionaries keep
    their insertion order; their keys are strings. *)
#[warnings="-register-all"]
Inductive PyVal : Type :=
  | PNone
  | PBool (b : bool)
  | PInt (z : Z)
  | PStr (s : string)
  | PEnum (e : enum_member)
  | PList (items : list PyVal)
  | PDict (entries : list (string * PyVal)).

Definition dict := list (string * PyVal).

(** [d.get(k)]. *)
Fixpoint dict_get (k : string) (d : list (string * PyVal)) : option PyVal :=
  match d with
  | [] => None
  | (k', v) :: d' => if String.eqb k' k then Some v else dict_get k d'
  end.

(** [d[k] = v]: the value is replaced where the key already is, a new key
    goes last. *)
Fixpoint dict_set (k : string) (v : PyVal) (d : list (string * PyVal))
    : list (string * PyVal) :=
  match d with
  | [] => [(k, v)]
  | (k', v') :: d' =>
      if String.eqb k' k then (k', v) :: d' else (k', v') :: dict_set k v d'
  end.

(** [d.pop(k, None)]: the document without the key. *)
Fixpoint dict_del (k : string) (d : list (string * PyVal))
    : list (string * PyVal) :=
  match d with
  | [] => []
  | (k', v) :: d' =>
      if String.eqb k' k then dict_del k d' else (k', v) :: dict_del k d'
  end.

(** ** Models ([models.py], lines 60-142)

    One record per class, each in a module of the class's name, with the
    default-constructed instance [default] (the class called with no
    argument).  pydantic does not validate a field's default. *)

(** What the attribute [Property.data_type] can hold: a member of GarType
    once a value has been validated, or the string the class declares as
    default ([data_type: GarType = ""]), which is taken as it is. *)
Inductive data_type_t : Set :=
  | Member (g : GarType)
  | Unvalidated (s : string).

Module Property.
Record t : Set := mk {
  name : string;
  data_type : data_type_t;
  is_primary : bool;
  is_nullable : option bool
}.
Definition default : t := mk "" (Unvalidated "") false None.
End Property.

Module PropertyGroup.
Record t : Set := mk {
  prefix : string;
  file_type : FileType;
  properties : list Property.t
}.
Definition default : t := mk "" PARQUET [].
End PropertyGroup.

Module AdjList.
Record t : Set := mk {
  ordered : bool;
  aligned_by : AdjListType;
  prefix : string;
  file_type : FileType
}.
Definition default : t := mk false UNORDERED_BY_SOURCE "" PARQUET.
End AdjList.

Module VertexInfo.
Record t : Set := mk {
  label : string;
  chunk_size : Z;
  prefix : string;
  property_groups : list PropertyGroup.t;
  version : string
}.
Definition default : t := mk "" 0 "" [] "".
End VertexInfo.

Module EdgeInfo.
Record t : Set := mk {
  src_label : string;
  edge_label : string;
  dst_label : string;
  chunk_size : Z;
  src_chunk_size : Z;
  dst_chunk_size : Z;
  directed : bool;
  prefix : string;
  adj_lists : list AdjList.t;
  property_groups : list PropertyGroup.t;
  version : string
}.
Definition default : t := mk "" "" "" 0 0 0 false "" [] [] "".
End EdgeInfo.

Module GraphInfo.
Record t : Set := mk {
  name : string;
  prefix : string;
  vertices : list string;
  edges : list string;
  version : string
}.
Definition default : t := mk "" "" [] [] "".
End GraphInfo.

(** The class objects, as the argument [model] of [read_yaml_from_any] and
    the [cls] of [from_yaml] receive them. *)
Inductive model_class : Set :=
  | CProperty | CPropertyGroup | CAdjList | CVertexInfo | CEdgeInfo | CGraphInfo.

(** The classes that inherit from YAMLSerializable. *)
Definition YAMLSerializable (cls : model_class) : bool :=
  match cls with
  | CVertexInfo | CEdgeInfo | CGraphInfo => true
  | _ => false
  end.

Definition instance (cls : model_class) : Set :=
  match cls with
  | CProperty => Property.t
  | CPropertyGroup => PropertyGroup.t
  | CAdjList => AdjList.t
  | CVertexInfo => VertexInfo.t
  | CEdgeInfo => EdgeInfo.t
  | CGraphInfo => GraphInfo.t
  end.

(** [cls()]. *)
Definition default (cls : model_class) : instance cls :=
  match cls with
  | CProperty => Property.default
  | CPropertyGroup => PropertyGroup.default
  | CAdjList => AdjList.default
  | CVertexInfo => VertexInfo.default
  | CEdgeInfo => EdgeInfo.default
  | CGraphInfo => GraphInfo.default
  end.

(** ** Validation (pydantic)

    A value that already has the declared type is taken as it is.  For
    [int] and [bool] fields the library also converts some values of other
    types (lax mode); which ones is left to the interface [Lax].  A [str]
    field takes strings only (an enumeration member is a [str] and counts
    as its value); no number is converted to a string. *)
Class Lax : Type := {
  lax_int : PyVal → option Z;
  lax_bool : PyVal → option bool
}.

Definition validate_str (v : PyVal) : option string :=
  match v with
  | PStr s => Some s
  | PEnum e => Some (enum_value e)
  | _ => None
  end.

(** An enumeration field takes a member of the class, or a string equal to
    the value of one of its members. *)
Definition validate_enum {E} (value : E → string) (members : list E)
    (v : PyVal) : option E :=
  s ← validate_str v; by_value value members s.

Definition validate_GarType : PyVal → option GarType :=
  validate_enum GarType_value GarType_members.
Definition validate_FileType : PyVal → option FileType :=
  validate_enum FileType_value FileType_members.
Definition validate_AdjListType : PyVal → option AdjListType :=
  validate_enum AdjListType_value AdjListType_members.

(** [Optional[T]]: [None] stays [None], anything else must be a [T]. *)
Definition validate_optional {A} (val : PyVal → option A) (v : PyVal)
    : option (option A) :=
  match v with
  | PNone => Some None
  | _ => Some <$> val v
  end.

(** [list[T]]: a list whose items all validate, in the same order. *)
Definition validate_list {A} (val : PyVal → option A) (v : PyVal)
    : option (list A) :=
  match v with
  | PList items => mapM val items
  | _ => None
  end.

(** One declared field [k: T = dflt] read from the input mapping: the
    default when the key is missing, the validated value otherwise. *)
Definition field {A} (d : dict) (k : string) (dflt : A)
    (val : PyVal → option A) : option A :=
  match dict_get k d with
  | None => Some dflt
  | Some v => val v
  end.

Section Validation.
Context {L : Lax}.

Definition validate_int (v : PyVal) : option Z :=
  match v with
  | PInt z => Some z
  | _ => lax_int v
  end.

Definition validate_bool (v : PyVal) : option bool :=
  match v with
  | PBool b => Some b
  | _ => lax_bool v
  end.

Definition validate_Property (v : PyVal) : option Property.t :=
  match v with
  | PDict d =>
      name ← field d "name" "" validate_str;
      data_type ← field d "data_type" (Unvalidated "")
                    (λ x, Member <$> validate_GarType x);
      is_primary ← field d "is_primary" false validate_bool;
      is_nullable ← field d "is_nullable" None (validate_optional validate_bool);
      Some (Property.mk name data_type is_primary is_nullable)
  | _ => None
  end.

Definition validate_PropertyGroup (v : PyVal) : option PropertyGroup.t :=
  match v with
  | PDict d =>
      prefix ← field d "prefix" "" validate_str;
      file_type ← field d "file_type" PARQUET validate_FileType;
      properties ← field d "properties" [] (validate_list validate_Property);
      Some (PropertyGroup.mk prefix file_type properties)
  | _ => None
  end.

Definition validate_AdjList (v : PyVal) : option AdjList.t :=
  match v with
  | PDict d =>
      ordered ← field d "ordered" false validate_bool;
      aligned_by ← field d "aligned_by" UNORDERED_BY_SOURCE validate_AdjListType;
      prefix ← field d "prefix" "" validate_str;
      file_type ← field d "file_type" PARQUET validate_FileType;
      Some (AdjList.mk ordered aligned_by prefix file_type)
  | _ => None
  end.

Definition validate_VertexInfo (v : PyVal) : option VertexInfo.t :=
  match v with
  | PDict d =>
      label ← field d "label" "" validate_str;
      chunk_size ← field d "chunk_size" 0 validate_int;
      prefix ← field d "prefix" "" validate_str;
      property_groups ← field d "property_groups" []
                          (validate_list validate_PropertyGroup);
      version ← field d "version" "" validate_str;
      Some (VertexInfo.mk label chunk_size prefix property_groups version)
  | _ => None
  end.

Definition validate_EdgeInfo (v : PyVal) : option EdgeInfo.t :=
  match v with
  | PDict d =>
      src_label ← field d "src_label" "" validate_str;
      edge_label ← field d "edge_label" "" validate_str;
      dst_label ← field d "dst_label" "" validate_str;
      chunk_size ← field d "chunk_size" 0 validate_int;
      src_chunk_size ← field d "src_chunk_size" 0 validate_int;
      dst_chunk_size ← field d "dst_chunk_size" 0 validate_int;
      directed ← field d "directed" false validate_bool;
      prefix ← field d "prefix" "" validate_str;
      adj_lists ← field d "adj_lists" [] (validate_list validate_AdjList);
      property_groups ← field d "property_groups" []
                          (validate_list validate_PropertyGroup);
      version ← field d "version" "" validate_str;
      Some (EdgeInfo.mk src_label edge_label dst_label chunk_size
              src_chunk_size dst_chunk_size directed prefix adj_lists
              property_groups version)
  | _ => None
  end.

Definition validate_GraphInfo (v : PyVal) : option GraphInfo.t :=
  match v with
  | PDict d =>
      name ← field d "name" "" validate_str;
      prefix ← field d "prefix" "" validate_str;
      vertices ← field d "vertices" [] (validate_list validate_str);
      edges ← field d "edges" [] (validate_list validate_str);
      version ← field d "version" "" validate_str;
      Some (GraphInfo.mk name prefix vertices edges version)
  | _ => None
  end.

(** [model.validate(obj)]: the instance, or ValidationError. *)
Definition validate (cls : model_class) : PyVal → option (instance cls) :=
  match cls with
  | CProperty => validate_Property
  | CPropertyGroup => validate_PropertyGroup
  | CAdjList => validate_AdjList
  | CVertexInfo => validate_VertexInfo
  | CEdgeInfo => validate_EdgeInfo
  | CGraphInfo => validate_GraphInfo
  end.
End Validation.

(** ** [model_dump(mode="python")]

    The instance as a dictionary of its fields in declaration order, nested
    models as dictionaries, lists as lists.  In this mode an enumeration
    member stays the member object. *)
Definition dump_optional_bool (o : option bool) : PyVal :=
  match o with
  | None => PNone
  | Some b => PBool b
  end.

Definition dump_data_type (x : data_type_t) : PyVal :=
  match x with
  | Member g => PEnum (EGarType g)
  | Unvalidated s => PStr s
  end.

Definition dump_Property (p : Property.t) : PyVal :=
  PDict [("name", PStr (Property.name p));
         ("data_type", dump_data_type (Property.data_type p));
         ("is_primary", PBool (Property.is_primary p));
         ("is_nullable", dump_optional_bool (Property.is_nullable p))].

Definition dump_PropertyGroup (g : PropertyGroup.t) : PyVal :=
  PDict [("prefix", PStr (PropertyGroup.prefix g));
         ("file_type", PEnum (EFileType (PropertyGroup.file_type g)));
         ("properties", PList (dump_Property <$> PropertyGroup.properties g))].

Definition dump_AdjList (a : AdjList.t) : PyVal :=
  PDict [("ordered", PBool (AdjList.ordered a));
         ("aligned_by", PEnum (EAdjListType (AdjList.aligned_by a)));
         ("prefix", PStr (AdjList.prefix a));
         ("file_type", PEnum (EFileType (AdjList.file_type a)))].

Definition dump_VertexInfo (x : VertexInfo.t) : PyVal :=
  PDict [("label", PStr (VertexInfo.label x));
         ("chunk_size", PInt (VertexInfo.chunk_size x));
         ("prefix", PStr (VertexInfo.prefix x));
         ("property_groups",
            PList (dump_PropertyGroup <$> VertexInfo.property_groups x));
         ("version", PStr (VertexInfo.version x))].

Definition dump_EdgeInfo (x : EdgeInfo.t) : PyVal :=
  PDict [("src_label", PStr (EdgeInfo.src_label x));
         ("edge_label", PStr (EdgeInfo.edge_label x));
         ("dst_label", PStr (EdgeInfo.dst_label x));
         ("chunk_size", PInt (EdgeInfo.chunk_size x));
         ("src_chunk_size", PInt (EdgeInfo.src_chunk_size x));
         ("dst_chunk_size", PInt (EdgeInfo.dst_chunk_size x));
         ("directed", PBool (EdgeInfo.directed x));
         ("prefix", PStr (EdgeInfo.prefix x));
         ("adj_lists", PList (dump_AdjList <$> EdgeInfo.adj_lists x));
         ("property_groups",
            PList (dump_PropertyGroup <$> EdgeInfo.property_groups x));
         ("version", PStr (EdgeInfo.version x))].

Definition dump_GraphInfo (x : GraphInfo.t) : PyVal :=
  PDict [("name", PStr (GraphInfo.name x));
         ("prefix", PStr (GraphInfo.prefix x));
         ("vertices", PList (PStr <$> GraphInfo.vertices x));
         ("edges", PList (PStr <$> GraphInfo.edges x));
         ("version", PStr (GraphInfo.version x))].

Definition model_dump (cls : model_class) : instance cls → PyVal :=
  match cls with
  | CProperty => dump_Property
  | CPropertyGroup => dump_PropertyGroup
  | CAdjList => dump_AdjList
  | CVertexInfo => dump_VertexInfo
  | CEdgeInfo => dump_EdgeInfo
  | CGraphInfo => dump_GraphInfo
  end.

(** [getattr(m, k)], read off the dumped fields. *)
Definition getattr (cls : model_class) (m : instance cls) (k : string)
    : option PyVal :=
  match model_dump cls m with
  | PDict d => dict_get k d
  | _ => None
  end.

(** ** YAML (PyYAML)

    [yaml.safe_dump] first represents the object as a node graph, then
    emits the graph as text.  The safe representer knows the exact types
    [NoneType], [bool], [int], [str], [list] and [dict] (among those that
    occur here); an instance of any other class, a member of a
    [str]-backed enumeration included, makes it raise RepresenterError. *)
Fixpoint representable (v : PyVal) : bool :=
  match v with
  | PNone | PBool _ | PInt _ | PStr _ => true
  | PEnum _ => false
  | PList items => forallb representable items
  | PDict entries => forallb (λ kv, representable kv.2) entries
  end.

(** The text side of the library: the emitter, applied to a representable
    object, and the loader, which returns [None] when it raises YAMLError. *)
Class Yaml : Type := {
  emit : PyVal → string;
  safe_load : string → option PyVal
}.

Definition safe_dump {Y : Yaml} (v : PyVal) : result string :=
  if representable v then Ok (emit v) else Raise RepresenterError.

(** ** Spark: data frames and the text data source *)

(** A data frame of string columns, with the rows as they were given. *)
Record DataFrame : Type := {
  columns : list string;
  rows : list (list string)
}.

(** The file system behind a session: the lines stored at each location,
    in the order in which they are written and read. *)
Abbreviation SparkSession := (gmap string (list string)).

Definition width (data : list (list string)) : nat :=
  foldr (λ r n, Nat.max (length r) n) 0%nat data.

(** [spark.createDataFrame(data)] for a list of tuples of strings: the
    schema is inferred from all rows and has the columns [_1], [_2], ... of
    the longest tuple.  An empty list has no schema to infer. *)
Definition createDataFrame (data : list (list string)) : result DataFrame :=
  match data with
  | [] => Raise ValueError
  | _ =>
      Ok {| columns := (λ i, "_" +:+ pretty (S i)) <$> seq 0 (width data);
            rows := data |}
  end.

(** The value of a row of a one-column frame. *)
Definition single (r : list string) : option string :=
  match r with
  | [s] => Some s
  | _ => None
  end.

(** [df.write.format("text").mode("overwrite").option("header", "false")
       .save(location)].  In overwrite mode the location is cleared first.
    The text source then takes a frame of exactly one column, and writes
    one line per row and no header; a row that does not have the one value
    the schema asks for fails the job. *)
Definition save_text (df : DataFrame) (location : string)
    (spark : SparkSession) : result unit * SparkSession :=
  let cleared := delete location spark in
  match columns df with
  | [_] =>
      match mapM single (rows df) with
      | Some lines => (Ok (), <[location := lines]> cleared)
      | None => (Raise Py4JJavaError, cleared)
      end
  | _ => (Raise AnalysisException, cleared)
  end.

(** [spark.read.text(location)]: one row per line, in a single column named
    [value]; a path that does not exist is an AnalysisException. *)
Definition read_text (location : string) (spark : SparkSession)
    : result DataFrame :=
  match spark !! location with
  | None => Raise AnalysisException
  | Some lines => Ok {| columns := ["value"]; rows := (λ l, [l]) <$> lines |}
  end.

(** A collected row: the column names with the values. *)
Definition Row : Type := list string * list string.

(** [df.collect()]. *)
Definition collect (df : DataFrame) : list Row :=
  (λ r, (columns df, r)) <$> rows df.

Fixpoint index_of (k : string) (ks : list string) : option nat :=
  match ks with
  | [] => None
  | k' :: ks' => if String.eqb k' k then Some 0%nat else S <$> index_of k ks'
  end.

(** [row[k]]: the value, or ValueError when the row has no such column. *)
Definition getitem (row : Row) (k : string) : result string :=
  or_raise ValueError (i ← index_of k row.1; row.2 !! i).

(** ** The helpers ([helpers.py]) *)

Section Helpers.
Context {L : Lax} {Y : Yaml}.

(** Lines 36-37: load the text, validate the object. *)
Definition decode (model : model_class) (raw_text : string)
    : result (instance model) :=
  pydict ← or_raise YAMLError (safe_load raw_text);
  or_raise ValidationError (validate model pydict).

(** Line 35: [row["value"] for row in spark_text.collect()]. *)
Definition values (spark_text : DataFrame) : result (list string) :=
  mapM (λ row, getitem row "value") (collect spark_text).

(** Lines 26-37. *)
Definition read_yaml_from_any (location : string) (model : model_class)
    (spark : SparkSession) : result (instance model) :=
  spark_text ← read_text location spark;
  vs ← values spark_text;
  let raw_text := Py.join Py.nl vs in
  pydict ← or_raise YAMLError (safe_load raw_text);
  or_raise ValidationError (validate model pydict).

(** Lines 48-49, first half: the YAML text of the model. *)
Definition encode (cls : model_class) (model : instance cls) : result string :=
  let pydict := model_dump cls model in
  safe_dump pydict.

(** Line 49, second half: [[tuple(v) for v in text.split("\n")]]. *)
Definition raw_text (text : string) : list (list string) :=
  Py.tuple <$> Py.split Py.newline text.

(** Lines 40-51. *)
Definition write_yaml_to_any (location : string) (cls : model_class)
    (model : instance cls) (spark : SparkSession)
    : result unit * SparkSession :=
  let pydict := model_dump cls model in
  match safe_dump pydict with
  | Raise e => (Raise e, spark)
  | Ok text =>
      match createDataFrame (raw_text text) with
      | Raise e => (Raise e, spark)
      | Ok spark_df => save_text spark_df location spark
      end
  end.

(** [YAMLSerializable.from_yaml] and [YAMLSerializable.to_yaml]
    ([models.py], lines 89-106). *)
Definition from_yaml (cls : model_class) (file_path : string)
    (spark : SparkSession) : result (instance cls) :=
  read_yaml_from_any file_path cls spark.

Definition to_yaml (cls : model_class) (self : instance cls)
    (file_path : string) (spark : SparkSession)
    : result unit * SparkSession :=
  write_yaml_to_any file_path cls self spark.
End Helpers.


(** ** A reference implementation of the two library interfaces

    [Ref.lax] follows pydantic's conversion table for the values of
    [PyVal]; [Ref.yaml] writes and reads the block-style YAML that
    [safe_dump] produces with its default options (keys sorted, block
    collections, sequences not indented under their key), for scalars that
    fit on one line.  A string made of letters, digits, [_ / . -] and
    single inner spaces that starts with a letter and is no YAML 1.1
    keyword is written plain, any other string in single quotes.  The
    loader refuses a document outside this subset. *)
Module Ref.

Definition between (lo hi : nat) (c : ascii) : bool :=
  let n := nat_of_ascii c in (lo <=? n)%nat && (n <=? hi)%nat.
Definition is_digit : ascii → bool := between 48 57.
Definition is_letter (c : ascii) : bool := between 65 90 c || between 97 122 c.
Definition is_char (x : ascii) (c : ascii) : bool := Ascii.eqb c x.

Definition plain_char (c : ascii) : bool :=
  is_letter c || is_digit c || is_char "_" c || is_char "/" c
  || is_char "." c || is_char "-" c.

Definition true_words : list string :=
  ["yes"; "Yes"; "YES"; "true"; "True"; "TRUE"; "on"; "On"; "ON"].
Definition false_words : list string :=
  ["no"; "No"; "NO"; "false"; "False"; "FALSE"; "off"; "Off"; "OFF"].
Definition null_words : list string := ["null"; "Null"; "NULL"; "~"].

Definition among (ws : list string) (s : string) : bool :=
  existsb (String.eqb s) ws.

Definition keyword (s : string) : bool :=
  among true_words s || among false_words s || among null_words s.

(** Plain characters, with single spaces only between two of them. *)
Fixpoint spaced (s : string) : bool :=
  match s with
  | EmptyString => true
  | String c s' =>
      if is_char " " c then
        match s' with
        | String c' _ => plain_char c' && spaced s'
        | EmptyString => false
        end
      else plain_char c && spaced s'
  end.

Definition plain_ok (s : string) : bool :=
  match s with
  | String c _ => is_letter c && spaced s && negb (keyword s)
  | EmptyString => false
  end.

Definition quote : ascii := "'"%char.

Fixpoint quoted_body (s : string) : string :=
  match s with
  | EmptyString => EmptyString
  | String c s' =>
      if is_char quote c then String c (String c (quoted_body s'))
      else String c (quoted_body s')
  end.

Definition emit_str (s : string) : string :=
  if plain_ok s then s
  else String quote (quoted_body s +:+ String quote EmptyString).

(** How a node is laid out: on the line of its key or dash, or as a block
    of lines below it. *)
Inductive shape : Set := Scalar | Seq | Map.

Definition shape_of (v : PyVal) : shape :=
  match v with
  | PList (_ :: _) => Seq
  | PDict (_ :: _) => Map
  | _ => Scalar
  end.

Definition emit_scalar (v : PyVal) : string :=
  match v with
  | PNone => "null"
  | PBool true => "true"
  | PBool false => "false"
  | PInt z => pretty z
  | PStr s => emit_str s
  | PEnum e => emit_str (enum_value e)
  | PList _ => "[]"
  | PDict _ => "{}"
  end.

Definition indent (l : string) : string := "  " +:+ l.

Definition seq_item (ls : list string) : list string :=
  match ls with
  | [] => ["-"]
  | l :: rest => ("- " +:+ l) :: (indent <$> rest)
  end.

Definition map_entry (k : string) (sh : shape) (ls : list string)
    : list string :=
  match sh with
  | Scalar => [emit_str k +:+ ": " +:+ String.concat "" ls]
  | Seq => (emit_str k +:+ ":") :: ls
  | Map => (emit_str k +:+ ":") :: (indent <$> ls)
  end.

Fixpoint insert_sorted {A} (e : string * A) (l : list (string * A))
    : list (string * A) :=
  match l with
  | [] => [e]
  | e' :: l' =>
      if String.leb e.1 e'.1 then e :: l else e' :: insert_sorted e l'
  end.

(** [sorted(mapping.items())], on the keys. *)
Definition sort_keys {A} (l : list (string * A)) : list (string * A) :=
  foldr insert_sorted [] l.

(** The lines of a node, relative to its own indentation. *)
Fixpoint block (v : PyVal) : list string :=
  match v with
  | PList items =>
      match items with
      | [] => [emit_scalar v]
      | _ :: _ =>
          (fix go (l : list PyVal) : list string :=
             match l with
             | [] => []
             | x :: l' => seq_item (block x) ++ go l'
             end) items
      end
  | PDict entries =>
      match entries with
      | [] => [emit_scalar v]
      | _ :: _ =>
          mjoin (snd <$> sort_keys
            ((fix go (l : list (string * PyVal))
                 : list (string * list string) :=
                match l with
                | [] => []
                | (k, x) :: l' => (k, map_entry k (shape_of x) (block x)) :: go l'
                end) entries))
      end
  | _ => [emit_scalar v]
  end.

Definition emit_ref (v : PyVal) : string :=
  String.concat "" ((λ l, l +:+ Py.nl) <$> block v).

(** *** The loader *)

Fixpoint leading (s : string) : nat * string :=
  match s with
  | String c s' =>
      if is_char " " c then let '(n, r) := leading s' in (S n, r) else (0%nat, s)
  | EmptyString => (0%nat, s)
  end.

(** The indented, non-blank lines of a text. *)
Definition text_lines (text : string) : list (nat * string) :=
  filter (λ l, l.2 ≠ EmptyString) (leading <$> Py.split Py.newline text).

(** [- rest]: the text after the dash of a sequence entry. *)
Definition item_of (c : string) : option string :=
  match c with
  | String d EmptyString => if is_char "-" d then Some EmptyString else None
  | String d (String sp r) =>
      if is_char "-" d && is_char " " sp then Some r else None
  | _ => None
  end.

(** [key: rest]: a line cut at its first colon that ends the line or is
    followed by a space. *)
Fixpoint entry_of (c : string) : option (string * string) :=
  match c with
  | EmptyString => None
  | String x c' =>
      if is_char ":" x then
        match c' with
        | EmptyString => Some (EmptyString, EmptyString)
        | String sp r =>
            if is_char " " sp then Some (EmptyString, r)
            else '(k, r) ← entry_of c'; Some (String x k, r)
        end
      else '(k, r) ← entry_of c'; Some (String x k, r)
  end.

Fixpoint unquoted_body (s : string) : option string :=
  match s with
  | EmptyString => None
  | String c s' =>
      if is_char quote c then
        match s' with
        | EmptyString => Some EmptyString
        | String c' s'' =>
            if is_char quote c' then String quote <$> unquoted_body s'' else None
        end
      else String c <$> unquoted_body s'
  end.

Fixpoint digits (s : string) (acc : Z) : option Z :=
  match s with
  | EmptyString => Some acc
  | String c s' =>
      if is_digit c then digits s' (10 * acc + Z.of_nat (nat_of_ascii c - 48))
      else None
  end.

(** A decimal integer: an optional sign, then [0] or digits that do not
    start with [0]. *)
Definition parse_int (s : string) : option Z :=
  let unsigned (u : string) :=
    match u with
    | EmptyString => None
    | String c r =>
        if is_char "0" c && negb (String.eqb r EmptyString) then None
        else digits u 0
    end in
  match s with
  | String c r =>
      if is_char "-" c then Z.opp <$> unsigned r
      else if is_char "+" c then unsigned r
      else unsigned s
  | EmptyString => None
  end.

Definition parse_str (s : string) : option string :=
  match s with
  | String c r =>
      if is_char quote c then unquoted_body r
      else if plain_ok s then Some s
      else None
  | EmptyString => None
  end.

Definition parse_scalar (s : string) : option PyVal :=
  if among null_words s then Some PNone
  else if among true_words s then Some (PBool true)
  else if among false_words s then Some (PBool false)
  else if String.eqb s "[]" then Some (PList [])
  else if String.eqb s "{}" then Some (PDict [])
  else match parse_int s with
       | Some z => Some (PInt z)
       | None => PStr <$> parse_str s
       end.

(** [d[k] = v] done before the assignments that built [d]: a later
    assignment to the same key wins, the key keeps its first place. *)
Definition dict_first (k : string) (v : PyVal) (d : list (string * PyVal))
    : list (string * PyVal) :=
  match dict_get k d with
  | Some v' => (k, v') :: dict_del k d
  | None => (k, v) :: d
  end.

Inductive mode : Set := Node | Items | Entries.

Definition starts_block (c : string) : bool :=
  match c with
  | String q _ =>
      negb (is_char quote q) && (has (item_of c) || has (entry_of c))
  | EmptyString => false
  end.

(** The block node that starts at the first of the lines [ls], all of whose
    entries are indented by [n]; the lines left over are returned. *)
Fixpoint parse (fuel : nat) (m : mode) (n : nat) (ls : list (nat * string))
    : option (PyVal * list (nat * string)) :=
  match fuel with
  | O => None
  | S fuel =>
      match m, ls with
      | Node, [] => None
      | Node, (i, c) :: _ =>
          if negb (i =? n)%nat then None
          else if has (item_of c) then parse fuel Items n ls
          else parse fuel Entries n ls
      | Items, [] => Some (PList [], [])
      | Items, (i, c) :: rest =>
          match (if (i =? n)%nat then item_of c else None) with
          | None => Some (PList [], ls)
          | Some r =>
              '(x, rest1) ←
                (if String.eqb r EmptyString then
                   match rest with
                   | (j, _) :: _ =>
                       if (n <? j)%nat then parse fuel Node j rest
                       else Some (PNone, rest)
                   | [] => Some (PNone, [])
                   end
                 else if starts_block r then
                   parse fuel Node (n + 2)%nat (((n + 2)%nat, r) :: rest)
                 else x ← parse_scalar r; Some (x, rest));
              '(more, rest2) ← parse fuel Items n rest1;
              match more with
              | PList xs => Some (PList (x :: xs), rest2)
              | _ => None
              end
          end
      | Entries, [] => Some (PDict [], [])
      | Entries, (i, c) :: rest =>
          if negb (i =? n)%nat then Some (PDict [], ls)
          else
            '(k, r) ← entry_of c;
            key ← parse_str k;
            '(x, rest1) ←
              (if String.eqb r EmptyString then
                 match rest with
                 | (j, c') :: _ =>
                     if (n <? j)%nat then parse fuel Node j rest
                     else if (j =? n)%nat && has (item_of c')
                     then parse fuel Items n rest
                     else Some (PNone, rest)
                 | [] => Some (PNone, [])
                 end
               else x ← parse_scalar r; Some (x, rest));
            '(more, rest2) ← parse fuel Entries n rest1;
            match more with
            | PDict d => Some (PDict (dict_first key x d), rest2)
            | _ => None
            end
      end
  end.

Definition safe_load_ref (text : string) : option PyVal :=
  match text_lines text with
  | [] => Some PNone
  | ((i, c) :: rest) as ls =>
      if negb (i =? 0)%nat then None
      else if starts_block c then
        '(v, remaining) ← parse (2 * String.length text + 4) Node 0%nat ls;
        match remaining with
        | [] => Some v
        | _ => None
        end
      else match rest with
           | [] => parse_scalar c
           | _ => None
           end
  end.

#[export] Instance yaml : Yaml := {|
  emit := emit_ref;
  safe_load := safe_load_ref
|}.

(** *** Lax conversions *)

Definition lower (c : ascii) : ascii :=
  if between 65 90 c then ascii_of_nat (nat_of_ascii c + 32) else c.

Fixpoint lowercase (s : string) : string :=
  match s with
  | EmptyString => EmptyString
  | String c s' => String (lower c) (lowercase s')
  end.

Definition lax_int_ref (v : PyVal) : option Z :=
  match v with
  | PBool b => Some (Z.b2z b)
  | PStr s => parse_int s
  | _ => None
  end.

Definition lax_bool_ref (v : PyVal) : option bool :=
  match v with
  | PInt 0 => Some false
  | PInt 1 => Some true
  | PStr s =>
      if among ["0"; "off"; "f"; "false"; "n"; "no"] (lowercase s) then Some false
      else if among ["1"; "on"; "t"; "true"; "y"; "yes"] (lowercase s) then Some true
      else None
  | _ => None
  end.

#[export] Instance lax : Lax := {|
  lax_int := lax_int_ref;
  lax_bool := lax_bool_ref
|}.

End Ref.


(** ** Vocabulary of the properties *)

(** A value that is none of the literals of an enumeration (and no member
    of it either). *)
Definition outside (literals : list string) (v : PyVal) : bool :=
  match v with
  | PStr s => negb (bool_decide (s ∈ literals))
  | PEnum e => negb (bool_decide (enum_value e ∈ literals))
  | _ => true
  end.

(** The document gives the field [k] a value that is [bad]. *)
Definition field_is (d : dict) (k : string) (bad : PyVal → bool) : bool :=
  match dict_get k d with
  | Some v => bad v
  | None => false
  end.

(** The value is a list with a [bad] item. *)
Definition some_item (bad : PyVal → bool) (v : PyVal) : bool :=
  match v with
  | PList items => existsb bad items
  | _ => false
  end.

(** A document for the class in which some enumeration field, its own or
    one of a nested model, has a value outside the field's literals. *)
Definition Property_violation (v : PyVal) : bool :=
  match v with
  | PDict d => field_is d "data_type" (outside GarType_literals)
  | _ => false
  end.

Definition PropertyGroup_violation (v : PyVal) : bool :=
  match v with
  | PDict d =>
      field_is d "file_type" (outside FileType_literals)
      || field_is d "properties" (some_item Property_violation)
  | _ => false
  end.

Definition AdjList_violation (v : PyVal) : bool :=
  match v with
  | PDict d =>
      field_is d "aligned_by" (outside AdjListType_literals)
      || field_is d "file_type" (outside FileType_literals)
  | _ => false
  end.

Definition enum_violation (cls : model_class) (v : PyVal) : bool :=
  match cls with
  | CProperty => Property_violation v
  | CPropertyGroup => PropertyGroup_violation v
  | CAdjList => AdjList_violation v
  | CVertexInfo =>
      match v with
      | PDict d => field_is d "property_groups" (some_item PropertyGroup_violation)
      | _ => false
      end
  | CEdgeInfo =>
      match v with
      | PDict d =>
          field_is d "adj_lists" (some_item AdjList_violation)
          || field_is d "property_groups" (some_item PropertyGroup_violation)
      | _ => false
      end
  | CGraphInfo => false
  end.

(** The declared fields of a class, each with the test that its validator
    yields a value. *)
Definition declared_fields {L : Lax} (cls : model_class)
    : list (string * (PyVal → bool)) :=
  let str := λ v, has (validate_str v) in
  let int := λ v, has (validate_int v) in
  let bool := λ v, has (validate_bool v) in
  let property_groups := λ v, has (validate_list validate_PropertyGroup v) in
  match cls with
  | CProperty =>
      [("name", str);
       ("data_type", λ v, has (validate_GarType v));
       ("is_primary", bool);
       ("is_nullable", λ v, has (validate_optional validate_bool v))]
  | CPropertyGroup =>
      [("prefix", str);
       ("file_type", λ v, has (validate_FileType v));
       ("properties", λ v, has (validate_list validate_Property v))]
  | CAdjList =>
      [("ordered", bool);
       ("aligned_by", λ v, has (validate_AdjListType v));
       ("prefix", str);
       ("file_type", λ v, has (validate_FileType v))]
  | CVertexInfo =>
      [("label", str); ("chunk_size", int); ("prefix", str);
       ("property_groups", property_groups); ("version", str)]
  | CEdgeInfo =>
      [("src_label", str); ("edge_label", str); ("dst_label", str);
       ("chunk_size", int); ("src_chunk_size", int); ("dst_chunk_size", int);
       ("directed", bool); ("prefix", str);
       ("adj_lists", λ v, has (validate_list validate_AdjList v));
       ("property_groups", property_groups); ("version", str)]
  | CGraphInfo =>
      [("name", str); ("prefix", str);
       ("vertices", λ v, has (validate_list validate_str v));
       ("edges", λ v, has (validate_list validate_str v));
       ("version", str)]
  end.

Fixpoint assoc {A} (k : string) (l : list (string * A)) : option A :=
  match l with
  | [] => None
  | (k', a) :: l' => if String.eqb k' k then Some a else assoc k l'
  end.

(** The entry [k: v] of a document is acceptable to the class: [k] is no
    declared field (the entry is ignored), or its validator takes [v]. *)
Definition acceptable {L : Lax} (cls : model_class) (kv : string * PyVal)
    : bool :=
  match assoc kv.1 (declared_fields cls) with
  | Some ok => ok kv.2
  | None => true
  end.

(** The chunk-size fields of a class. *)
Definition chunk_size_fields (cls : model_class) : list string :=
  match cls with
  | CVertexInfo => ["chunk_size"]
  | CEdgeInfo => ["chunk_size"; "src_chunk_size"; "dst_chunk_size"]
  | _ => []
  end.

(** The property has a member of GarType as [data_type]. *)
Definition typed (p : Property.t) : bool :=
  match Property.data_type p with
  | Member _ => true
  | Unvalidated _ => false
  end.

Definition all_typed (g : PropertyGroup.t) : bool :=
  forallb typed (PropertyGroup.properties g).

(** Every [data_type] inside the instance is a member of GarType. *)
Definition members_only (cls : model_class) : instance cls → bool :=
  match cls with
  | CProperty => typed
  | CPropertyGroup => all_typed
  | CAdjList => λ _, true
  | CVertexInfo => λ x, forallb all_typed (VertexInfo.property_groups x)
  | CEdgeInfo => λ x, forallb all_typed (EdgeInfo.property_groups x)
  | CGraphInfo => λ _, true
  end.

Definition nonempty {A} (l : list A) : bool :=
  match l with
  | [] => false
  | _ :: _ => true
  end.

(** The instance holds a member of an enumeration: its own field, or a
    nested model with one. *)
Definition carries_member (cls : model_class) : instance cls → bool :=
  match cls with
  | CProperty => typed
  | CPropertyGroup => λ _, true
  | CAdjList => λ _, true
  | CVertexInfo => λ x, nonempty (VertexInfo.property_groups x)
  | CEdgeInfo =>
      λ x, nonempty (EdgeInfo.adj_lists x)
           || nonempty (EdgeInfo.property_groups x)
  | CGraphInfo => λ _, false
  end.

(** ** Sample documents *)
Module Sample.

Definition social : GraphInfo.t :=
  GraphInfo.mk "social" "graph/" ["person"] ["knows"] "v1".

(** [yaml.safe_dump(social.model_dump(mode="python"))]. *)
Definition social_yaml : string :=
  "edges:
- knows
name: social
prefix: graph/
version: v1
vertices:
- person
".

Definition movies : GraphInfo.t :=
  GraphInfo.mk "movies" "films/" ["actor"] ["plays"] "v2".

Definition id_property : Property.t :=
  Property.mk "id" (Member INT64) true None.

Definition person : VertexInfo.t :=
  VertexInfo.mk "person" 100 "vertex/person/"
    [PropertyGroup.mk "id/" CSV [id_property]] "gar/v1".

Definition location : string := "graph.yml".

(** A vertex document whose property has a [data_type] outside GarType. *)
Definition invalid_type_yaml : string :=
  "label: person
property_groups:
- file_type: csv
  properties:
  - data_type: invalid
    name: id
".

(** Documents with negative chunk sizes. *)
Definition negative_vertex_yaml : string :=
  "chunk_size: -100
label: person
".

Definition negative_edge_yaml : string :=
  "chunk_size: -1
dst_chunk_size: -3
edge_label: knows
src_chunk_size: -2
".

(** What the loader returns for [social_yaml]: the keys in the order of
    the text. *)
Definition social_loaded : list (string * PyVal) :=
  [("edges", PList [PStr "knows"]); ("name", PStr "social");
   ("prefix", PStr "graph/"); ("version", PStr "v1");
   ("vertices", PList [PStr "person"])].

(** [yaml.safe_dump(Property().model_dump(mode="python"))], as loaded. *)
Definition default_property_yaml : string :=
  "data_type: ''
is_nullable: null
is_primary: false
name: ''
".

Definition default_property_loaded : list (string * PyVal) :=
  [("data_type", PStr ""); ("is_nullable", PNone);
   ("is_primary", PBool false); ("name", PStr "")].

(** A vertex document, as loaded, with two property groups, and the
    instance it is decoded to. *)
Definition person_groups : list PyVal :=
  [PDict [("file_type", PStr "csv");
          ("properties",
             PList [PDict [("data_type", PStr "int64"); ("name", PStr "id")];
                    PDict [("data_type", PStr "string");
                           ("name", PStr "firstName")]])];
   PDict [("file_type", PStr "orc"); ("prefix", PStr "extra/")]].

Definition person_loaded : list (string * PyVal) :=
  [("label", PStr "person"); ("property_groups", PList person_groups)].

Definition person_decoded : VertexInfo.t :=
  VertexInfo.mk "person" 0 ""
    [PropertyGroup.mk "" CSV
       [Property.mk "id" (Member INT64) false None;
        Property.mk "firstName" (Member STRING) false None];
     PropertyGroup.mk "extra/" ORC []]
    "".

(** A property document without [data_type]. *)
Definition untyped_property_yaml : string :=
  "name: id
".

(** A graph document without [version] (and without three other fields). *)
Definition unversioned_yaml : string :=
  "name: social
".

End Sample.


(** * Properties *)

(** ** Lines and tuples *)

Lemma split_not_nil sep s : Py.split sep s ≠ [].
Proof.
  destruct s as [|c s]; simpl; [done|].
  destruct (Ascii.eqb c sep); [done|].
  by destruct (Py.split sep s).
Qed.

(** Joining the lines of a text with the separator gives the text back: the
    convention of the bridge loses nothing by itself. *)
Lemma join_split sep s :
  Py.join (String sep EmptyString) (Py.split sep s) = s.
Proof.
  unfold Py.join. induction s as [|c s IH]; simpl; [done|].
  destruct (Ascii.eqb_spec c sep) as [->|Hne].
  - pose proof (split_not_nil sep s) as Hnil.
    destruct (Py.split sep s) as [|w ws]; [done|].
    simpl in *. by rewrite IH.
  - pose proof (split_not_nil sep s) as Hnil.
    destruct (Py.split sep s) as [|w ws]; [done|].
    simpl in *. destruct ws; simpl in *; by rewrite <- IH.
Qed.

Lemma tuple_length s : length (Py.tuple s) = String.length s.
Proof. induction s; simpl; congruence. Qed.

(** [tuple(v)] is the one-column record [(v,)] only for a line of exactly
    one character. *)
Lemma tuple_singleton s : Py.tuple s = Py.singleton s ↔ String.length s = 1%nat.
Proof.
  split.
  - intros Heq. rewrite <- tuple_length, Heq. done.
  - destruct s as [|c [|c' s]]; simpl; try done.
Qed.

Lemma width_ge (data : list (list string)) r :
  r ∈ data → (length r ≤ width data)%nat.
Proof.
  induction 1 as [r data|r r' data _ IH]; simpl; lia.
Qed.

Section Bridge.
Context {L : Lax} {Y : Yaml}.

(** X15.  The records handed to Spark are the single-column records of
    the lines exactly when every line has one character. *)
Lemma raw_text_single_column text :
  raw_text text = Py.singleton <$> Py.split Py.newline text
  ↔ Forall (λ l, String.length l = 1%nat) (Py.split Py.newline text).
Proof.
  unfold raw_text. induction (Py.split Py.newline text) as [|l ls IH]; simpl.
  - split; [constructor|done].
  - split.
    + intros [= Hl Hls]. constructor; [by apply tuple_singleton|by apply IH].
    + inversion_clear 1 as [|?? Hl Hls].
      f_equal; [by apply tuple_singleton|by apply IH].
Qed.

(** A frame built from the character tuples has as many columns as the
    longest line has characters. *)
Lemma createDataFrame_columns data df :
  createDataFrame data = Ok df → length (columns df) = width data.
Proof.
  destruct data as [|r data]; [done|].
  intros [= <-]. simpl. by rewrite length_fmap, length_seq.
Qed.

(** The text source refuses every frame whose width is not one. *)
Lemma save_text_refuses df location spark :
  length (columns df) ≠ 1%nat →
  save_text df location spark
  = (Raise AnalysisException, delete location spark).
Proof.
  unfold save_text. destruct (columns df) as [|c [|c' cs]]; simpl; done.
Qed.

(** In overwrite mode what is stored afterwards is the lines of the frame,
    whatever was there before. *)
Lemma save_text_overwrites lines location spark :
  save_text {| columns := ["value"]; rows := (λ l, [l]) <$> lines |}
    location spark
  = (Ok (), <[location := lines]> spark).
Proof.
  unfold save_text. simpl.
  assert (mapM single ((λ l, [l]) <$> lines) = Some lines) as ->.
  { induction lines as [|l ls IH]; [done|].
    rewrite fmap_cons. cbn [mapM]. by rewrite IH. }
  by rewrite insert_delete_eq.
Qed.

(** Writing a model whose YAML text has a line of two characters or more
    raises in the text source, after the location has been cleared. *)
Lemma write_refused_on_long_line location cls (model : instance cls) spark text l :
  encode cls model = Ok text →
  l ∈ Py.split Py.newline text →
  (2 ≤ String.length l)%nat →
  write_yaml_to_any location cls model spark
  = (Raise AnalysisException, delete location spark).
Proof.
  unfold encode, write_yaml_to_any. intros -> Hl Hlen.
  destruct (createDataFrame (raw_text text)) as [df|e] eqn:Hdf.
  - apply save_text_refuses.
    rewrite (createDataFrame_columns _ _ Hdf).
    assert (Py.tuple l ∈ raw_text text) as Hin
      by (unfold raw_text; by apply list_elem_of_fmap_2).
    apply width_ge in Hin. rewrite tuple_length in Hin. lia.
  - exfalso. unfold raw_text in Hdf.
    pose proof (split_not_nil Py.newline text).
    destruct (Py.split Py.newline text); done.
Qed.

End Bridge.

(** C1 (code defect).  The write path does not submit one single-column
    record per line.  For the GraphInfo named [social], whose YAML text is
    [social_yaml], line 49 turns every line into the tuple of its
    characters: the record of the line [edges:] has six columns, the last
    record (the empty string after the final newline) has none.  The list
    differs from the single-column records of the lines, and the text data
    source refuses the frame built from it, so nothing is persisted. *)
Theorem write_splits_lines_into_characters :
  encode (Y := Ref.yaml) CGraphInfo Sample.social = Ok Sample.social_yaml
  ∧ Py.split Py.newline Sample.social_yaml
    = ["edges:"; "- knows"; "name: social"; "prefix: graph/"; "version: v1";
       "vertices:"; "- person"; ""]
  ∧ raw_text Sample.social_yaml
    = [["e"; "d"; "g"; "e"; "s"; ":"];
       ["-"; " "; "k"; "n"; "o"; "w"; "s"];
       ["n"; "a"; "m"; "e"; ":"; " "; "s"; "o"; "c"; "i"; "a"; "l"];
       ["p"; "r"; "e"; "f"; "i"; "x"; ":"; " "; "g"; "r"; "a"; "p"; "h"; "/"];
       ["v"; "e"; "r"; "s"; "i"; "o"; "n"; ":"; " "; "v"; "1"];
       ["v"; "e"; "r"; "t"; "i"; "c"; "e"; "s"; ":"];
       ["-"; " "; "p"; "e"; "r"; "s"; "o"; "n"];
       []]
  ∧ raw_text Sample.social_yaml
    ≠ Py.singleton <$> Py.split Py.newline Sample.social_yaml
  ∧ write_yaml_to_any (Y := Ref.yaml) Sample.location CGraphInfo Sample.social ∅
    = (Raise AnalysisException, ∅).
Proof.
  split; [vm_compute; reflexivity|].
  split; [vm_compute; reflexivity|].
  split; [vm_compute; reflexivity|].
  split; [vm_compute; discriminate|].
  rewrite (write_refused_on_long_line (Y := Ref.yaml) Sample.location
             CGraphInfo Sample.social ∅ Sample.social_yaml "edges:").
  - by rewrite delete_empty.
  - vm_compute; reflexivity.
  - vm_compute. apply list_elem_of_here.
  - vm_compute. lia.
Qed.

(** ** The read path *)

Section ReadPath.
Context {L : Lax} {Y : Yaml}.

(** The rows that [read.text] returns carry the stored lines, in order, in
    the column [value]. *)
Lemma values_read_text location spark lines :
  spark !! location = Some lines →
  ∃ df, read_text location spark = Ok df
        ∧ length (collect df) = length lines
        ∧ values df = Ok lines.
Proof.
  intros Hl. unfold read_text. rewrite Hl. eexists; split; [done|].
  unfold values, collect; simpl. rewrite !length_fmap. split; [done|].
  clear Hl. induction lines as [|l ls IH]; [done|].
  rewrite !fmap_cons. cbn [mapM]. rewrite IH. done.
Qed.

Lemma read_yaml_from_any_decode location model spark lines :
  spark !! location = Some lines →
  read_yaml_from_any location model spark
  = decode model (Py.join Py.nl lines).
Proof.
  intros Hl. destruct (values_read_text _ _ _ Hl) as (df & Hdf & _ & Hv).
  unfold read_yaml_from_any, decode. rewrite Hdf. simpl. by rewrite Hv.
Qed.

(** A store that holds the lines of a text gives the text back to the
    decoder. *)
Lemma read_yaml_from_any_split location model spark text :
  spark !! location = Some (Py.split Py.newline text) →
  read_yaml_from_any location model spark = decode model text.
Proof.
  intros Hl. rewrite (read_yaml_from_any_decode _ _ _ _ Hl).
  unfold Py.nl. by rewrite join_split.
Qed.

Lemma decode_not_AnalysisException model text :
  decode model text ≠ Raise AnalysisException.
Proof.
  unfold decode. destruct (safe_load text) as [d|]; simpl; [|done].
  by destruct (validate model d).
Qed.

(** C4.  Where the store holds single-column records, the read path
    fetches all of them, takes the text column of each in order, joins
    them with newlines, and only then decodes: the result is the decoding
    of the joined text. *)
Theorem read_joins_all_lines_then_decodes location model spark lines :
  spark !! location = Some lines →
  (∃ df, read_text location spark = Ok df
         ∧ length (collect df) = length lines
         ∧ values df = Ok lines)
  ∧ read_yaml_from_any location model spark
    = decode model (Py.join Py.nl lines).
Proof.
  intros Hl. split.
  - by apply values_read_text.
  - by apply read_yaml_from_any_decode.
Qed.

(** C8, as the code has it.  The only error of the read path that tells of
    a missing location is Spark's AnalysisException, raised before any
    parsing; it is raised exactly when the location does not exist in the
    store, and differs from the errors of parsing and validation.  A
    location that exists and holds no record is not reported this way. *)
Theorem read_raises_AnalysisException_iff_missing location model spark :
  (read_yaml_from_any location model spark = Raise AnalysisException
   ↔ spark !! location = None)
  ∧ AnalysisException ≠ YAMLError
  ∧ AnalysisException ≠ ValidationError.
Proof.
  split; [|done]. split.
  - destruct (spark !! location) as [lines|] eqn:Hl; [|done].
    rewrite (read_yaml_from_any_decode _ _ _ _ Hl).
    intros Hd. by apply decode_not_AnalysisException in Hd.
  - intros Hl. unfold read_yaml_from_any, read_text. by rewrite Hl.
Qed.

End ReadPath.

(** C4 at a location that holds a two-line graph document. *)
Lemma read_joins_all_lines_then_decodes_witness :
  ({[Sample.location := ["name: social"; "version: v1"]]} : SparkSession)
    !! Sample.location = Some ["name: social"; "version: v1"]
  ∧ read_yaml_from_any (L := Ref.lax) (Y := Ref.yaml) Sample.location CGraphInfo
      {[Sample.location := ["name: social"; "version: v1"]]}
    = decode (L := Ref.lax) (Y := Ref.yaml) CGraphInfo
        (Py.join Py.nl ["name: social"; "version: v1"]).
Proof.
  split; [reflexivity|].
  apply (read_joins_all_lines_then_decodes (L := Ref.lax) (Y := Ref.yaml)
           Sample.location CGraphInfo
           {[Sample.location := ["name: social"; "version: v1"]]}
           ["name: social"; "version: v1"]).
  reflexivity.
Defined.

(** C8, counterexample.  A location that exists in the store and holds no
    record: the read yields the empty text, the loader returns [None] for
    it, and what is raised is the validation error, not an error of a
    missing location. *)
Lemma read_of_empty_location_is_validation_error :
  ({[Sample.location := []]} : SparkSession) !! Sample.location = Some []
  ∧ read_yaml_from_any (L := Ref.lax) (Y := Ref.yaml) Sample.location CGraphInfo
      {[Sample.location := []]}
    = Raise ValidationError.
Proof. split; vm_compute; reflexivity. Qed.

(** ** Encoding *)

Section Encoding.
Context {L : Lax} {Y : Yaml}.

(** [safe_dump] cannot represent a PropertyGroup or an AdjList (their
    [file_type] is always a member object), nor a Property whose
    [data_type] was validated, nor any document that contains one. *)
Lemma encode_PropertyGroup_raises (g : PropertyGroup.t) :
  encode CPropertyGroup g = Raise RepresenterError.
Proof. done. Qed.

Lemma encode_AdjList_raises (a : AdjList.t) :
  encode CAdjList a = Raise RepresenterError.
Proof. done. Qed.

Lemma encode_Property_raises (p : Property.t) g :
  Property.data_type p = Member g →
  encode CProperty p = Raise RepresenterError.
Proof. unfold encode, safe_dump. simpl. by intros ->. Qed.

Lemma encode_VertexInfo_raises (v : VertexInfo.t) :
  VertexInfo.property_groups v ≠ [] →
  encode CVertexInfo v = Raise RepresenterError.
Proof.
  unfold encode, safe_dump. simpl.
  destruct (VertexInfo.property_groups v); [done|]. intros _. simpl. done.
Qed.

Lemma encode_EdgeInfo_raises (e : EdgeInfo.t) :
  EdgeInfo.adj_lists e ≠ [] ∨ EdgeInfo.property_groups e ≠ [] →
  encode CEdgeInfo e = Raise RepresenterError.
Proof.
  unfold encode, safe_dump. simpl.
  destruct (EdgeInfo.adj_lists e) as [|a l]; simpl.
  - destruct (EdgeInfo.property_groups e); simpl; [|done]. by intros [|].
  - done.
Qed.

Lemma representable_strings (l : list string) :
  forallb representable (PStr <$> l) = true.
Proof. by induction l. Qed.

(** A GraphInfo has no enumeration field and is always represented. *)
Lemma encode_GraphInfo (g : GraphInfo.t) :
  encode CGraphInfo g = Ok (emit (model_dump CGraphInfo g)).
Proof.
  unfold encode, safe_dump. simpl. by rewrite !representable_strings.
Qed.

Lemma validate_strings (l : list string) :
  mapM validate_str (PStr <$> l) = Some l.
Proof. induction l as [|s l IH]; [done|]. rewrite fmap_cons. cbn [mapM]. by rewrite IH. Qed.

Lemma validate_dump_GraphInfo (g : GraphInfo.t) :
  validate CGraphInfo (model_dump CGraphInfo g) = Some g.
Proof.
  destruct g. unfold validate, validate_GraphInfo, model_dump, dump_GraphInfo.
  simpl. unfold field. simpl. rewrite !validate_strings. done.
Qed.

(** Where the loader gives back the object that was dumped, a GraphInfo
    survives encoding and decoding. *)
Lemma decode_encode_GraphInfo (g : GraphInfo.t) text :
  encode CGraphInfo g = Ok text →
  safe_load text = Some (model_dump CGraphInfo g) →
  decode CGraphInfo text = Ok g.
Proof.
  intros _ Hload. unfold decode. rewrite Hload.
  cbn -[validate model_dump]. by rewrite validate_dump_GraphInfo.
Qed.

(** C3 (code defect).  The VertexInfo [person] has valid field values: one
    property group stored as CSV with one INT64 property.  Its dump in
    Python mode holds the members [FileType.CSV] and [GarType.INT64], which
    [safe_dump] cannot represent: encoding raises RepresenterError whatever
    the emitter, so there is no text to decode and no model comes back. *)
Theorem encode_of_enum_members_raises :
  model_dump CVertexInfo Sample.person
  = PDict [("label", PStr "person"); ("chunk_size", PInt 100);
           ("prefix", PStr "vertex/person/");
           ("property_groups",
              PList [PDict [("prefix", PStr "id/");
                            ("file_type", PEnum (EFileType CSV));
                            ("properties",
                               PList [PDict [("name", PStr "id");
                                             ("data_type", PEnum (EGarType INT64));
                                             ("is_primary", PBool true);
                                             ("is_nullable", PNone)]])]]);
           ("version", PStr "gar/v1")]
  ∧ encode CVertexInfo Sample.person = Raise RepresenterError
  ∧ ∀ spark, write_yaml_to_any Sample.location CVertexInfo Sample.person spark
             = (Raise RepresenterError, spark).
Proof. done. Qed.

End Encoding.

(** ** Store round trips *)

(** The two sample graphs are refused by the text source, which leaves the
    location cleared. *)
Lemma to_yaml_sample_refused (m : GraphInfo.t) (spark : SparkSession) :
  m = Sample.social ∨ m = Sample.movies →
  to_yaml (Y := Ref.yaml) CGraphInfo m Sample.location spark
  = (Raise AnalysisException, delete Sample.location spark).
Proof.
  intros [-> | ->];
    eapply (write_refused_on_long_line _ _ _ _ _ "edges:");
    vm_compute; first [reflexivity | apply list_elem_of_here | lia].
Qed.

(** C2 (code defect).  Written with [to_yaml] to an empty store and read
    back with [from_yaml], the GraphInfo [social] does not come back: the
    write raises in the text data source (its records are character
    tuples, see C1) and stores nothing, so the read finds no such path.
    The read path is not at fault: from a store that holds the lines of
    the text it returns [social]. *)
Theorem to_yaml_then_from_yaml_loses_the_model :
  to_yaml (Y := Ref.yaml) CGraphInfo Sample.social Sample.location ∅
  = (Raise AnalysisException, ∅)
  ∧ from_yaml (L := Ref.lax) (Y := Ref.yaml) CGraphInfo Sample.location
      (to_yaml (Y := Ref.yaml) CGraphInfo Sample.social Sample.location ∅).2
    = Raise AnalysisException
  ∧ from_yaml (L := Ref.lax) (Y := Ref.yaml) CGraphInfo Sample.location
      {[Sample.location := Py.split Py.newline Sample.social_yaml]}
    = Ok Sample.social.
Proof.
  rewrite to_yaml_sample_refused by auto. rewrite delete_empty.
  split; [done|]. split; vm_compute; reflexivity.
Qed.

(** C5 (code defect).  Writing [social] and then [movies] to the same
    location and reading back does not yield [movies]: both writes raise
    (same defect as C1), nothing is stored, and the read finds no such
    path.  Nor does the write of [movies] replace a document that is
    already stored at the location: it raises, and the read that follows
    does not return [movies]. *)
Theorem second_write_does_not_replace :
  let spark1 :=
    (to_yaml (Y := Ref.yaml) CGraphInfo Sample.social Sample.location ∅).2 in
  let spark2 :=
    (to_yaml (Y := Ref.yaml) CGraphInfo Sample.movies Sample.location spark1).2 in
  let stored : SparkSession :=
    {[Sample.location := Py.split Py.newline Sample.social_yaml]} in
  (to_yaml (Y := Ref.yaml) CGraphInfo Sample.social Sample.location ∅).1
  = Raise AnalysisException
  ∧ (to_yaml (Y := Ref.yaml) CGraphInfo Sample.movies Sample.location spark1).1
    = Raise AnalysisException
  ∧ from_yaml (L := Ref.lax) (Y := Ref.yaml) CGraphInfo Sample.location spark2
    = Raise AnalysisException
  ∧ from_yaml (L := Ref.lax) (Y := Ref.yaml) CGraphInfo Sample.location stored
    = Ok Sample.social
  ∧ (to_yaml (Y := Ref.yaml) CGraphInfo Sample.movies Sample.location stored).1
    = Raise AnalysisException
  ∧ from_yaml (L := Ref.lax) (Y := Ref.yaml) CGraphInfo Sample.location
      (to_yaml (Y := Ref.yaml) CGraphInfo Sample.movies Sample.location stored).2
    ≠ Ok Sample.movies.
Proof.
  cbv zeta. rewrite !to_yaml_sample_refused by auto. simpl.
  repeat split; try (vm_compute; reflexivity).
  vm_compute. discriminate.
Qed.

(** ** Validation *)

Lemma by_value_outside {E} (value : E → string) members s :
  s ∉ value <$> members → by_value value members s = None.
Proof.
  unfold by_value. induction members as [|m ms IH]; simpl; [done|].
  intros Hs. destruct (String.eqb_spec (value m) s) as [<-|_].
  - exfalso. apply Hs. apply list_elem_of_here.
  - apply IH. intros Hin. apply Hs. by apply list_elem_of_further.
Qed.

Lemma by_value_member {E} (value : E → string) members s m :
  by_value value members s = Some m → value m = s ∧ s ∈ value <$> members.
Proof.
  unfold by_value. induction members as [|m' ms IH]; simpl; [done|].
  destruct (String.eqb_spec (value m') s) as [<-|_].
  - intros [= ->]. split; [done|apply list_elem_of_here].
  - intros Hf. destruct (IH Hf). split; [done|by apply list_elem_of_further].
Qed.

(** An enumeration field rejects every value outside its literals. *)
Lemma outside_rejected {E} (value : E → string) members v :
  outside (value <$> members) v = true → validate_enum value members v = None.
Proof.
  unfold validate_enum.
  destruct v; simpl; try done; intros Hout; apply by_value_outside;
    apply negb_true_iff, bool_decide_eq_false in Hout; done.
Qed.

Lemma bind_None_all {A B} (f : A → option B) (o : option A) :
  (∀ x, f x = None) → o ≫= f = None.
Proof. destruct o; simpl; auto. Qed.

Lemma field_rejected {A} d k (dflt : A) val (bad : PyVal → bool) :
  field_is d k bad = true →
  (∀ v, bad v = true → val v = None) →
  field d k dflt val = None.
Proof.
  unfold field_is, field. destruct (dict_get k d); [|done]. auto.
Qed.

Lemma list_rejected {A} (val : PyVal → option A) (bad : PyVal → bool) v :
  some_item bad v = true →
  (∀ x, bad x = true → val x = None) →
  validate_list val v = None.
Proof.
  destruct v; simpl; try done. intros Hex Hbad.
  apply mapM_None_2. apply existsb_exists in Hex as (x & Hin & Hx).
  apply Exists_exists. exists x. split; [by apply list_elem_of_In|auto].
Qed.

(** Once a declared field is rejected the whole input is. *)
Ltac rejected Hf :=
  repeat first [ rewrite Hf; reflexivity | apply bind_None_all; intros ? ].

Section Rejection.
Context {L : Lax}.

Lemma Property_rejected v :
  Property_violation v = true → validate_Property v = None.
Proof.
  destruct v as [| | | | | |d]; simpl; try done. intros Hbad.
  eapply (field_rejected _ _ (Unvalidated "")
            (λ x, Member <$> validate_GarType x)) in Hbad.
  - rejected Hbad.
  - intros v Hv. unfold validate_GarType.
    by rewrite (outside_rejected _ _ _ Hv).
Qed.

Lemma PropertyGroup_rejected v :
  PropertyGroup_violation v = true → validate_PropertyGroup v = None.
Proof.
  destruct v as [| | | | | |d]; simpl; try done.
  intros [Hbad|Hbad]%orb_true_iff.
  - eapply (field_rejected _ _ PARQUET validate_FileType) in Hbad;
      [rejected Hbad|apply outside_rejected].
  - eapply (field_rejected _ _ [] (validate_list validate_Property)) in Hbad;
      [rejected Hbad|].
    intros v Hv. eapply list_rejected; [done|apply Property_rejected].
Qed.

Lemma AdjList_rejected v :
  AdjList_violation v = true → validate_AdjList v = None.
Proof.
  destruct v as [| | | | | |d]; simpl; try done.
  intros [Hbad|Hbad]%orb_true_iff.
  - eapply (field_rejected _ _ UNORDERED_BY_SOURCE validate_AdjListType) in Hbad;
      [rejected Hbad|apply outside_rejected].
  - eapply (field_rejected _ _ PARQUET validate_FileType) in Hbad;
      [rejected Hbad|apply outside_rejected].
Qed.

Lemma property_groups_rejected d :
  field_is d "property_groups" (some_item PropertyGroup_violation) = true →
  field d "property_groups" [] (validate_list validate_PropertyGroup) = None.
Proof.
  intros Hbad. eapply field_rejected; [done|].
  intros v Hv. eapply list_rejected; [done|apply PropertyGroup_rejected].
Qed.

Lemma adj_lists_rejected d :
  field_is d "adj_lists" (some_item AdjList_violation) = true →
  field d "adj_lists" [] (validate_list validate_AdjList) = None.
Proof.
  intros Hbad. eapply field_rejected; [done|].
  intros v Hv. eapply list_rejected; [done|apply AdjList_rejected].
Qed.

Lemma enum_violation_rejected cls v :
  enum_violation cls v = true → validate cls v = None.
Proof.
  destruct cls; simpl.
  - apply Property_rejected.
  - apply PropertyGroup_rejected.
  - apply AdjList_rejected.
  - destruct v as [| | | | | |d]; simpl; try done.
    intros Hbad%property_groups_rejected. rejected Hbad.
  - destruct v as [| | | | | |d]; simpl; try done.
    intros [Hbad%adj_lists_rejected|Hbad%property_groups_rejected]%orb_true_iff;
      rejected Hbad.
  - done.
Qed.

Context {Y : Yaml}.

(** C6.  A document in which an enumeration field (of the target class or
    of a model nested in it) has a value outside the field's closed set of
    literals does not decode: ValidationError is raised and no instance is
    produced.  The same holds on the read path from the store. *)
Theorem enum_violation_raises_ValidationError cls text d :
  safe_load text = Some d →
  enum_violation cls d = true →
  decode cls text = Raise ValidationError
  ∧ ∀ location spark,
      spark !! location = Some (Py.split Py.newline text) →
      from_yaml cls location spark = Raise ValidationError.
Proof.
  intros Hload Hbad.
  assert (decode cls text = Raise ValidationError) as Hd.
  { unfold decode. rewrite Hload. cbn -[validate].
    by rewrite (enum_violation_rejected _ _ Hbad). }
  split; [done|]. intros location spark Hl.
  unfold from_yaml. by rewrite (read_yaml_from_any_split _ _ _ _ Hl).
Qed.

End Rejection.

(** ** Missing and reassigned fields *)

Lemma dict_get_del k key d :
  dict_get key (dict_del k d)
  = if String.eqb k key then None else dict_get key d.
Proof.
  induction d as [|[k' v] d IH]; simpl; [by destruct (String.eqb k key)|].
  destruct (String.eqb_spec k' k) as [->|Hk]; simpl.
  - rewrite IH. by destruct (String.eqb k key).
  - rewrite IH. destruct (String.eqb_spec k' key) as [->|Hkey]; [|done].
    destruct (String.eqb_spec k key) as [->|_]; done.
Qed.

Lemma dict_get_set k v key d :
  dict_get key (dict_set k v d)
  = if String.eqb k key then Some v else dict_get key d.
Proof.
  induction d as [|[k' v'] d IH]; simpl.
  - by destruct (String.eqb k key).
  - destruct (String.eqb_spec k' k) as [->|Hk]; simpl.
    + by destruct (String.eqb k key).
    + rewrite IH. destruct (String.eqb_spec k' key) as [->|Hkey]; [|done].
      destruct (String.eqb_spec k key) as [->|_]; done.
Qed.

Lemma field_del {A} k key d (dflt : A) val :
  field (dict_del k d) key dflt val
  = if String.eqb k key then Some dflt else field d key dflt val.
Proof. unfold field. rewrite dict_get_del. by destruct (String.eqb k key). Qed.

Lemma field_set {A} k v key d (dflt : A) val :
  field (dict_set k v d) key dflt val
  = if String.eqb k key then val v else field d key dflt val.
Proof. unfold field. rewrite dict_get_set. by destruct (String.eqb k key). Qed.

(** The fields that were accepted, one equation each. *)
Ltac accepted H :=
  repeat match type of H with
  | context [field ?d ?k ?dflt ?val] =>
      let E := fresh "E" in
      destruct (field d k dflt val) eqn:E; simpl in H; [|discriminate H]
  end;
  injection H as <-.

(** Settle every comparison of keys in the goal, one case per outcome. *)
Ltac decide_keys :=
  repeat match goal with
  | |- context [String.eqb ?a ?b] =>
      destruct (String.eqb_spec a b);
      try discriminate; try congruence; subst; simpl
  end.

Ltac same_attr :=
  unfold getattr; simpl; intros; decide_keys; try reflexivity.

#[local] Arguments String.eqb : simpl never.

Section Fields.
Context {L : Lax}.

(** The empty mapping gives the default-constructed instance. *)
Lemma validate_empty cls : validate cls (PDict []) = Some (default cls).
Proof. by destruct cls. Qed.

(** X14.  Dropping a key from a mapping that is validated gives a mapping
    that is validated; in the new instance the dropped field has the
    default of the class and every other field is as before. *)
Lemma validate_omitted cls d m k :
  validate cls (PDict d) = Some m →
  ∃ m', validate cls (PDict (dict_del k d)) = Some m'
        ∧ getattr cls m' k = getattr cls (default cls) k
        ∧ ∀ k', k' ≠ k → getattr cls m' k' = getattr cls m k'.
Proof.
  intros Hm. destruct cls; simpl in *.
  all: accepted Hm.
  all: rewrite !field_del.
  all: decide_keys.
  all: repeat match goal with E : field _ _ _ _ = Some _ |- _ => rewrite E; clear E end.
  all: simpl; eexists; split; [reflexivity|].
  all: split; [same_attr|same_attr].
Qed.

Lemma dict_get_elem_of k v d : dict_get k d = Some v → (k, v) ∈ d.
Proof.
  induction d as [|[k' v'] d IH]; simpl; [done|].
  destruct (String.eqb_spec k' k) as [->|_].
  - intros [= ->]. apply list_elem_of_here.
  - intros Hd. by apply list_elem_of_further, IH.
Qed.

Lemma field_accepted {A} d k (dflt : A) val :
  (∀ v, dict_get k d = Some v → has (val v) = true) →
  ∃ x, field d k dflt val = Some x ∧ (dict_get k d = None → x = dflt).
Proof.
  unfold field. destruct (dict_get k d) as [v|].
  - intros Hv. specialize (Hv v eq_refl).
    destruct (val v) as [x|]; [|done]. by exists x.
  - intros _. by exists dflt.
Qed.

(** A mapping whose entries are acceptable is validated, and every
    declared field that the mapping lacks has its default. *)
Lemma validate_acceptable cls d :
  forallb (acceptable cls) d = true →
  ∃ m, validate cls (PDict d) = Some m
       ∧ ∀ k, dict_get k d = None →
              getattr cls m k = getattr cls (default cls) k.
Proof.
  intros Hall.
  assert (∀ k v, dict_get k d = Some v → acceptable cls (k, v) = true) as Hok.
  { intros k v Hin%dict_get_elem_of.
    rewrite forallb_forall in Hall. by apply Hall, list_elem_of_In. }
  clear Hall. destruct cls; simpl.
  all: repeat match goal with
    | |- context [field ?d ?k ?dflt ?val] =>
        let x := fresh "x" in
        let E := fresh "E" in
        let D := fresh "D" in
        destruct (field_accepted d k dflt val) as (x & E & D);
        [ intros v Hv; generalize (Hok k v Hv); unfold acceptable; simpl;
          decide_keys; first [done | by destruct (validate_GarType v)]
        | rewrite E; clear E ]
    end.
  all: simpl; eexists; split; [reflexivity|].
  all: intros k Hk; unfold getattr; simpl; decide_keys; try reflexivity.
  all: match goal with
    | D : dict_get ?key ?d = None → _, Hk : dict_get ?key ?d = None |- _ =>
        rewrite (D Hk)
    end; reflexivity.
Qed.

(** Conversely, in a mapping that is validated every entry that is looked
    up is acceptable. *)
Lemma validate_Some_acceptable cls d m k v :
  validate cls (PDict d) = Some m →
  dict_get k d = Some v →
  acceptable cls (k, v) = true.
Proof.
  intros Hm Hget. destruct cls; simpl in Hm.
  all: accepted Hm.
  all: unfold acceptable; simpl; decide_keys; try reflexivity.
  all: match goal with
    | E : field ?d ?key _ _ = Some _ , Hget : dict_get ?key ?d = Some _
      |- has ?o = true =>
        unfold field in E; rewrite Hget in E;
        destruct o; [reflexivity|discriminate E]
    end.
Qed.

End Fields.

Section Documents.
Context {L : Lax} {Y : Yaml}.

Lemma decode_Ok cls text m :
  decode cls text = Ok m ↔ ∃ v, safe_load text = Some v ∧ validate cls v = Some m.
Proof.
  unfold decode. destruct (safe_load text) as [v|]; cbn -[validate].
  - destruct (validate cls v) as [m'|] eqn:Hv; cbn -[validate].
    + split; [intros [= ->]; eauto|]. intros (? & [= <-] & Hm). congruence.
    + split; [done|]. intros (? & [= <-] & Hm). congruence.
  - split; [done|]. by intros (? & ? & _).
Qed.

(** C7, as the code has it.  The chunk-size fields are plain integers:
    assigning any integer [z], negative or not, to one of them in a
    document that validates gives a document that validates, and the
    instance carries [z] in that field and is otherwise unchanged. *)
Theorem chunk_size_takes_any_integer cls d m k z :
  validate cls (PDict d) = Some m →
  k ∈ chunk_size_fields cls →
  ∃ m', validate cls (PDict (dict_set k (PInt z) d)) = Some m'
        ∧ getattr cls m' k = Some (PInt z)
        ∧ ∀ k', k' ≠ k → getattr cls m' k' = getattr cls m k'.
Proof.
  intros Hm Hk. destruct cls; simpl in *.
  all: repeat (apply elem_of_cons in Hk as [->|Hk]).
  all: try by apply elem_of_nil in Hk.
  all: accepted Hm.
  all: rewrite !field_set.
  all: decide_keys.
  all: repeat match goal with E : field _ _ _ _ = Some _ |- _ => rewrite E; clear E end.
  all: simpl; eexists; split; [reflexivity|].
  all: split; [same_attr|same_attr].
Qed.

(** C9.  A document that is a mapping with acceptable entries decodes,
    whatever declared fields it leaves out, and every field it leaves out
    has its declared default; for the three document classes a missing
    [version] is decoded as the empty string. *)
Theorem document_with_missing_fields_decodes cls text d :
  safe_load text = Some (PDict d) →
  forallb (acceptable cls) d = true →
  ∃ m, decode cls text = Ok m
       ∧ (∀ k, dict_get k d = None →
               getattr cls m k = getattr cls (default cls) k)
       ∧ (YAMLSerializable cls = true →
          dict_get "version" d = None →
          getattr cls m "version" = Some (PStr "")).
Proof.
  intros Hload Hall.
  destruct (validate_acceptable cls d Hall) as (m & Hm & Hdefault).
  exists m. split; [apply decode_Ok; eauto|]. split; [done|].
  intros Hcls Hversion. rewrite (Hdefault _ Hversion). by destruct cls.
Qed.

(** C10, as the code has it.  The default-constructed Property has the
    string [""] as [data_type], which is none of the seven literals of
    GarType; the same string given in a document is rejected.  A
    [data_type] that a document gives is always decoded to a member; a
    document that gives none is decoded with the unvalidated default, just
    as the default-constructed instance. *)
Theorem default_data_type_is_no_member :
  Property.data_type (default CProperty) = Unvalidated ""
  ∧ length GarType_literals = 7%nat
  ∧ ("" ∉ GarType_literals)
  ∧ validate CProperty (PDict []) = Some (default CProperty)
  ∧ validate CProperty (PDict [("data_type", PStr "")]) = None
  ∧ ∀ d m,
      validate CProperty (PDict d) = Some m →
      match dict_get "data_type" d with
      | Some v =>
          ∃ g, Property.data_type m = Member g
               ∧ GarType_value g ∈ GarType_literals
      | None => Property.data_type m = Unvalidated ""
      end.
Proof.
  split; [done|]. split; [done|].
  split.
  { unfold GarType_literals. simpl. intros Hin.
    repeat (apply elem_of_cons in Hin as [?|Hin]; [discriminate|]).
    by apply elem_of_nil in Hin. }
  split; [done|]. split; [done|].
  intros d m Hm. simpl in Hm.
  destruct (field d "data_type" (Unvalidated "")
              (λ x, Member <$> validate_GarType x)) as [dt|] eqn:Hdt.
  - assert (Property.data_type m = dt) as ->.
    { accepted Hm. simpl. congruence. }
    unfold field in Hdt. destruct (dict_get "data_type" d) as [v|].
    + destruct (validate_GarType v) as [g|] eqn:Hg; [|done].
      injection Hdt as <-. exists g. split; [done|].
      unfold validate_GarType, validate_enum in Hg.
      destruct (validate_str v) as [s|]; [|done].
      change (by_value GarType_value GarType_members s = Some g) in Hg.
      apply by_value_member in Hg as [-> Hin]. done.
    + congruence.
  - exfalso.
    repeat match type of Hm with
    | context [field ?d ?k ?dflt ?val] =>
        destruct (field d k dflt val); simpl in Hm; try discriminate
    end.
Qed.

End Documents.

(** ** The properties at sample documents *)

(** C6 at a vertex document whose property has [data_type: invalid]. *)
Lemma enum_violation_raises_ValidationError_witness :
  safe_load (Yaml := Ref.yaml) Sample.invalid_type_yaml
  = Some (PDict [("label", PStr "person");
                 ("property_groups",
                    PList [PDict [("file_type", PStr "csv");
                                  ("properties",
                                     PList [PDict [("data_type", PStr "invalid");
                                                   ("name", PStr "id")]])]])])
  ∧ decode (L := Ref.lax) (Y := Ref.yaml) CVertexInfo Sample.invalid_type_yaml
    = Raise ValidationError
  ∧ ∀ location (spark : SparkSession),
      spark !! location = Some (Py.split Py.newline Sample.invalid_type_yaml) →
      from_yaml (L := Ref.lax) (Y := Ref.yaml) CVertexInfo location spark
      = Raise ValidationError.
Proof.
  split; [vm_compute; reflexivity|].
  eapply (@enum_violation_raises_ValidationError Ref.lax Ref.yaml CVertexInfo
            Sample.invalid_type_yaml);
    vm_compute; reflexivity.
Defined.

(** C7, counterexample.  A vertex document with [chunk_size: -100] and an
    edge document with three negative chunk sizes decode, and so does the
    direct construction [VertexInfo(chunk_size=-100)]: the accepted
    instances carry the negative values. *)
Lemma negative_chunk_size_is_accepted :
  decode (L := Ref.lax) (Y := Ref.yaml) CVertexInfo Sample.negative_vertex_yaml
  = Ok (VertexInfo.mk "person" (-100) "" [] "")
  ∧ decode (L := Ref.lax) (Y := Ref.yaml) CEdgeInfo Sample.negative_edge_yaml
    = Ok (EdgeInfo.mk "" "knows" "" (-1) (-2) (-3) false "" [] [] "")
  ∧ validate (L := Ref.lax) CVertexInfo (PDict [("chunk_size", PInt (-100))])
    = Some (VertexInfo.mk "" (-100) "" [] "").
Proof. repeat split; vm_compute; reflexivity. Qed.

(** C7 at an edge document that is given [src_chunk_size = -5]. *)
Lemma chunk_size_takes_any_integer_witness :
  validate (L := Ref.lax) CEdgeInfo (PDict [("edge_label", PStr "knows")])
  = Some (EdgeInfo.mk "" "knows" "" 0 0 0 false "" [] [] "")
  ∧ "src_chunk_size" ∈ chunk_size_fields CEdgeInfo
  ∧ ∃ m',
      validate (L := Ref.lax) CEdgeInfo
        (PDict (dict_set "src_chunk_size" (PInt (-5))
                  [("edge_label", PStr "knows")])) = Some m'
      ∧ getattr CEdgeInfo m' "src_chunk_size" = Some (PInt (-5))
      ∧ ∀ k', k' ≠ "src_chunk_size" →
          getattr CEdgeInfo m' k'
          = getattr CEdgeInfo
              (EdgeInfo.mk "" "knows" "" 0 0 0 false "" [] [] "") k'.
Proof.
  split; [reflexivity|].
  split; [apply list_elem_of_further, list_elem_of_here|].
  apply (@chunk_size_takes_any_integer Ref.lax CEdgeInfo
           [("edge_label", PStr "knows")]
           (EdgeInfo.mk "" "knows" "" 0 0 0 false "" [] [] "")
           "src_chunk_size" (-5)).
  - reflexivity.
  - apply list_elem_of_further, list_elem_of_here.
Defined.

(** C9 at a graph document that gives [name] only. *)
Lemma document_with_missing_fields_decodes_witness :
  safe_load (Yaml := Ref.yaml) Sample.unversioned_yaml
  = Some (PDict [("name", PStr "social")])
  ∧ forallb (acceptable (L := Ref.lax) CGraphInfo) [("name", PStr "social")]
    = true
  ∧ ∃ m,
      decode (L := Ref.lax) (Y := Ref.yaml) CGraphInfo Sample.unversioned_yaml
      = Ok m
      ∧ (∀ k, dict_get k [("name", PStr "social")] = None →
              getattr CGraphInfo m k = getattr CGraphInfo (default CGraphInfo) k)
      ∧ (YAMLSerializable CGraphInfo = true →
         dict_get "version" [("name", PStr "social")] = None →
         getattr CGraphInfo m "version" = Some (PStr "")).
Proof.
  split; [vm_compute; reflexivity|].
  split; [vm_compute; reflexivity|].
  apply (@document_with_missing_fields_decodes Ref.lax Ref.yaml CGraphInfo
           Sample.unversioned_yaml [("name", PStr "social")]);
    vm_compute; reflexivity.
Defined.

(** C10 at a property document with [data_type: int64]. *)
Lemma default_data_type_is_no_member_witness :
  validate (L := Ref.lax) CProperty (PDict [("data_type", PStr "int64")])
  = Some (Property.mk "" (Member INT64) false None)
  ∧ ∃ g, Property.data_type (Property.mk "" (Member INT64) false None) = Member g
         ∧ GarType_value g ∈ GarType_literals.
Proof.
  split; [reflexivity|].
  destruct (@default_data_type_is_no_member Ref.lax) as (_ & _ & _ & _ & _ & Hdoc).
  apply (Hdoc [("data_type", PStr "int64")]
              (Property.mk "" (Member INT64) false None)).
  reflexivity.
Defined.

(** C10, counterexample.  A property document that gives a name and no
    [data_type] decodes, and the decoded instance has the string [""] as
    [data_type], which is no literal of GarType: the membership does not
    hold for every decoded instance. *)
Lemma decoded_property_without_data_type :
  decode (L := Ref.lax) (Y := Ref.yaml) CProperty Sample.untyped_property_yaml
  = Ok (Property.mk "id" (Unvalidated "") false None)
  ∧ ("" ∉ GarType_literals).
Proof.
  split; [vm_compute; reflexivity|].
  unfold GarType_literals. simpl. intros Hin.
  repeat (apply elem_of_cons in Hin as [?|Hin]; [discriminate|]).
  by apply elem_of_nil in Hin.
Qed.


(** * Further properties of the models and the helpers *)

#[local] Arguments String.eqb : simpl nomatch.

(** ** Enumerations *)

Lemma by_value_value {E} (value : E → string) members m :
  NoDup (value <$> members) → m ∈ members →
  by_value value members (value m) = Some m.
Proof.
  unfold by_value. induction members as [|m' ms IH]; simpl.
  - by intros _ ?%elem_of_nil.
  - intros [Hm' Hms]%NoDup_cons [->|Hin]%elem_of_cons.
    + by rewrite String.eqb_refl.
    + destruct (String.eqb_spec (value m') (value m)) as [Heq|_]; [|auto].
      exfalso. apply Hm'. rewrite Heq. by apply list_elem_of_fmap_2.
Qed.

Lemma validate_enum_iff {E} (value : E → string) members :
  NoDup (value <$> members) → (∀ m, m ∈ members) →
  ∀ v m, validate_enum value members v = Some m
         ↔ validate_str v = Some (value m).
Proof.
  intros Hnd Hall v m. unfold validate_enum.
  destruct (validate_str v) as [s|]; simpl; [|done]. split.
  - by intros [-> _]%by_value_member.
  - intros [= ->]. by apply by_value_value.
Qed.

Ltac distinct_strings :=
  repeat (apply NoDup_cons; split;
          [intros Hin;
           repeat (apply elem_of_cons in Hin as [?|Hin]; [discriminate|]);
           by apply elem_of_nil in Hin|]);
  apply NoDup_nil_2.

Ltac listed :=
  repeat first [apply list_elem_of_here | apply list_elem_of_further].

(** X1.  An enumeration field takes exactly the values of the members of
    its class and yields the member with that value: the input has to be
    the string (or a member object whose value is the string), spelled as
    in the class; no two members of a class share a value. *)
Theorem enumeration_takes_exactly_its_values :
  (∀ v g, validate_GarType v = Some g
          ↔ validate_str v = Some (GarType_value g))
  ∧ (∀ v f, validate_FileType v = Some f
            ↔ validate_str v = Some (FileType_value f))
  ∧ (∀ v a, validate_AdjListType v = Some a
            ↔ validate_str v = Some (AdjListType_value a))
  ∧ NoDup GarType_literals ∧ NoDup FileType_literals
  ∧ NoDup AdjListType_literals.
Proof.
  assert (NoDup GarType_literals) as Hg by (cbv; distinct_strings).
  assert (NoDup FileType_literals) as Hf by (cbv; distinct_strings).
  assert (NoDup AdjListType_literals) as Ha by (cbv; distinct_strings).
  repeat split; try done.
  all: apply validate_enum_iff; try done.
  all: intros []; cbv; listed.
Qed.

(** ** Dumping and validating again *)

Lemma mapM_fmap_same {A} (f : PyVal → option A) (g : A → PyVal) l :
  mapM f (g <$> l) = Some l ↔ Forall (λ x, f (g x) = Some x) l.
Proof.
  split; [|apply mapM_fmap_Forall_Some].
  induction l as [|x l IH]; [constructor|].
  rewrite fmap_cons. cbn [mapM]. intros Hm.
  destruct (f (g x)) as [y|] eqn:Hy; [|done]. simpl in Hm.
  destruct (mapM f (g <$> l)) as [k|] eqn:Hk; simpl in Hm; [|done].
  injection Hm as -> ->. constructor; [done|by apply IH].
Qed.

Section Dump.
Context {L : Lax}.

Lemma validate_dump_Property_typed p :
  validate_Property (dump_Property p) = Some p ↔ typed p = true.
Proof.
  destruct p as [n [g|s] b o]; unfold typed; simpl.
  - split; [done|intros _]. destruct g, o; reflexivity.
  - split; [|done]. unfold field. simpl.
    destruct (validate_GarType (PStr s)); simpl; [|done].
    destruct o; simpl; done.
Qed.

Lemma validate_dump_Properties ps :
  mapM validate_Property (dump_Property <$> ps) = Some ps
  ↔ forallb typed ps = true.
Proof.
  rewrite mapM_fmap_same, forallb_forall, Forall_forall.
  split; intros Hall p Hin.
  - apply validate_dump_Property_typed, Hall. by apply list_elem_of_In.
  - apply validate_dump_Property_typed, Hall. by apply list_elem_of_In.
Qed.

Lemma validate_dump_PropertyGroup_typed g :
  validate_PropertyGroup (dump_PropertyGroup g) = Some g ↔ all_typed g = true.
Proof.
  destruct g as [p ft ps]. unfold all_typed. simpl.
  rewrite <- validate_dump_Properties. unfold field. simpl.
  assert (validate_FileType (PEnum (EFileType ft)) = Some ft) as ->
    by (by destruct ft).
  simpl. destruct (mapM validate_Property (dump_Property <$> ps)) as [ps'|];
    simpl; [|done].
  split; congruence.
Qed.

Lemma validate_dump_PropertyGroups gs :
  mapM validate_PropertyGroup (dump_PropertyGroup <$> gs) = Some gs
  ↔ forallb all_typed gs = true.
Proof.
  rewrite mapM_fmap_same, forallb_forall, Forall_forall.
  split; intros Hall g Hin.
  - apply validate_dump_PropertyGroup_typed, Hall. by apply list_elem_of_In.
  - apply validate_dump_PropertyGroup_typed, Hall. by apply list_elem_of_In.
Qed.

Lemma validate_dump_AdjList a :
  validate_AdjList (dump_AdjList a) = Some a.
Proof. destruct a as [o al p ft]. by destruct al, ft. Qed.

Lemma validate_dump_AdjLists l :
  mapM validate_AdjList (dump_AdjList <$> l) = Some l.
Proof. apply mapM_fmap_Some, validate_dump_AdjList. Qed.

Lemma validate_dump cls m :
  validate cls (model_dump cls m) = Some m ↔ members_only cls m = true.
Proof.
  destruct cls; simpl.
  - apply validate_dump_Property_typed.
  - apply validate_dump_PropertyGroup_typed.
  - split; [done|intros _; apply validate_dump_AdjList].
  - destruct m as [l c p gs v]. simpl.
    rewrite <- validate_dump_PropertyGroups. unfold field. simpl.
    destruct (mapM validate_PropertyGroup (dump_PropertyGroup <$> gs));
      simpl; [|done].
    split; congruence.
  - destruct m as [sl el dl c sc dc dir p al gs v]. simpl.
    rewrite <- validate_dump_PropertyGroups. unfold field. simpl.
    rewrite validate_dump_AdjLists. simpl.
    destruct (mapM validate_PropertyGroup (dump_PropertyGroup <$> gs));
      simpl; [|done].
    split; congruence.
  - split; [done|intros _]. apply validate_dump_GraphInfo.
Qed.

(** X2.  Validating the dump of an instance gives the instance back
    exactly when every [data_type] inside it is a member of GarType: the
    enumeration members, integers, booleans, the three states of
    [is_nullable] and the order of all lists survive, while a Property
    that still has the unvalidated default [data_type] does not. *)
Theorem validate_of_dump_is_identity_iff_typed cls m :
  validate cls (model_dump cls m) = Some m ↔ members_only cls m = true.
Proof. apply validate_dump. Qed.

(** Validation looks at the value under each key only. *)
Lemma validate_lookups cls d d' :
  (∀ k, dict_get k d' = dict_get k d) →
  validate cls (PDict d') = validate cls (PDict d).
Proof.
  intros Hk. destruct cls; simpl; unfold field; by rewrite !Hk.
Qed.

Lemma representable_carries cls m :
  representable (model_dump cls m) = negb (carries_member cls m).
Proof.
  destruct cls; simpl.
  - destruct m as [n [g|s] b o]; simpl; [done|]. by destruct o.
  - done.
  - done.
  - destruct m as [l c p [|g gs] v]; simpl; [done|]. done.
  - destruct m as [sl el dl c sc dc dir p [|a al] [|g gs] v]; simpl;
      rewrite ?andb_false_r; done.
  - by rewrite !representable_strings.
Qed.

Lemma carries_none_members_only cls m :
  YAMLSerializable cls = true →
  carries_member cls m = false → members_only cls m = true.
Proof.
  destruct cls; simpl; try done.
  - by destruct (VertexInfo.property_groups m).
  - intros _ [_ Hg]%orb_false_iff. by destruct (EdgeInfo.property_groups m).
Qed.

Context {Y : Yaml}.

(** X3.  Encoding raises RepresenterError exactly for the instances that
    hold an enumeration member: every PropertyGroup and AdjList, every
    Property with a validated [data_type], every VertexInfo with a
    property group and every EdgeInfo with an adjacency list or a property
    group.  All other instances (every GraphInfo among them) are emitted.
    The write raises this error, with the store untouched, in exactly the
    same cases. *)
Theorem encode_raises_iff_member cls m location spark :
  encode cls m
  = (if carries_member cls m then Raise RepresenterError
     else Ok (emit (model_dump cls m)))
  ∧ (write_yaml_to_any location cls m spark = (Raise RepresenterError, spark)
     ↔ carries_member cls m = true).
Proof.
  assert (encode cls m
          = (if carries_member cls m then Raise RepresenterError
             else Ok (emit (model_dump cls m)))) as Henc.
  { unfold encode, safe_dump. rewrite representable_carries.
    by destruct (carries_member cls m). }
  split; [done|].
  unfold write_yaml_to_any. unfold encode in Henc. rewrite Henc.
  destruct (carries_member cls m); [done|].
  split; [|done].
  destruct (createDataFrame _) as [df|e] eqn:Hdf.
  - unfold save_text. destruct (columns df) as [|? [|]]; try done.
    by destruct (mapM single (rows df)).
  - destruct (raw_text _); [|done]. by injection Hdf as <-.
Qed.

(** X4.  For the three document classes, whenever a document can be
    encoded at all and the loader returns a mapping with the dumped value
    under every key, decoding the text gives the document back. *)
Theorem document_decodes_to_itself cls m text d :
  YAMLSerializable cls = true →
  encode cls m = Ok text →
  safe_load text = Some (PDict d) →
  (∀ k, dict_get k d = getattr cls m k) →
  decode cls text = Ok m.
Proof.
  intros Hcls Henc Hload Hd.
  assert (carries_member cls m = false) as Hc.
  { unfold encode, safe_dump in Henc. rewrite representable_carries in Henc.
    by destruct (carries_member cls m). }
  apply decode_Ok. exists (PDict d). split; [done|].
  assert (∃ d0, model_dump cls m = PDict d0) as [d0 Hd0]
    by (destruct cls; simpl; eauto).
  unfold getattr in Hd. rewrite Hd0 in Hd.
  rewrite (validate_lookups cls d0 d Hd), <- Hd0.
  by apply validate_dump, carries_none_members_only.
Qed.

(** X5.  No Property survives encoding and decoding: one with a validated
    [data_type] cannot be encoded, and one that can be encoded (it has the
    unvalidated default) is not what decoding its text returns. *)
Theorem property_never_decodes_to_itself (p : Property.t) text d :
  encode CProperty p = Ok text →
  safe_load text = Some (PDict d) →
  (∀ k, dict_get k d = getattr CProperty p k) →
  decode CProperty text ≠ Ok p.
Proof.
  intros Henc Hload Hd Hdec.
  assert (typed p = false) as Ht.
  { unfold encode, safe_dump in Henc.
    rewrite (representable_carries CProperty) in Henc. simpl in Henc.
    by destruct (typed p). }
  apply decode_Ok in Hdec as (v & Hv & Hm).
  rewrite Hload in Hv. injection Hv as <-.
  assert (validate CProperty (model_dump CProperty p) = Some p) as Hp.
  { transitivity (validate CProperty (PDict d)); [|exact Hm].
    apply (validate_lookups CProperty). intros k. symmetry. apply Hd. }
  apply validate_dump in Hp. simpl in Hp. congruence.
Qed.

End Dump.

(** ** Keys of a document *)

Lemma assoc_None_keys {A} k (l : list (string * A)) :
  assoc k l = None → k ∉ l.*1.
Proof.
  induction l as [|[k' a] l IH]; simpl; [intros _; apply not_elem_of_nil|].
  destruct (String.eqb_spec k' k) as [->|Hne]; [done|].
  intros Hl [->|Hin]%elem_of_cons; [done|]. by apply IH.
Qed.

Section Keys.
Context {L : Lax}.

(** X6.  A key that is no declared field of the class is ignored: giving
    it any value, or removing it, does not change what validation
    returns. *)
Theorem undeclared_key_is_ignored cls d k v :
  assoc k (declared_fields cls) = None →
  validate cls (PDict (dict_set k v d)) = validate cls (PDict d)
  ∧ validate cls (PDict (dict_del k d)) = validate cls (PDict d).
Proof.
  intros Hk%assoc_None_keys.
  split; destruct cls; simpl in *; rewrite ?field_set, ?field_del.
  all: repeat match goal with
    | Hk : ?k ∉ _ |- context [String.eqb ?k ?s] =>
        let Heq := fresh "Heq" in
        destruct (String.eqb_spec k s) as [Heq|_];
        [exfalso; apply Hk; rewrite Heq; listed|]
    end.
  all: reflexivity.
Qed.

(** X7.  The declared fields are validated independently of each other: a
    mapping is accepted exactly when each declared field that it gives has
    a value its own validator takes.  There is no constraint across
    fields, and the keys that are not declared never matter. *)
Theorem fields_validate_independently cls d :
  is_Some (validate cls (PDict d))
  ↔ ∀ k v, dict_get k d = Some v → acceptable cls (k, v) = true.
Proof.
  split.
  - intros [m Hm] k v Hget. by eapply validate_Some_acceptable.
  - intros Hok. destruct cls; simpl.
    all: repeat match goal with
      | |- context [field ?d ?k ?dflt ?val] =>
          let x := fresh "x" in
          let E := fresh "E" in
          let D := fresh "D" in
          destruct (field_accepted d k dflt val) as (x & E & D);
          [ intros v Hv; generalize (Hok k v Hv); unfold acceptable; simpl;
            first [done | by destruct (validate_GarType v)]
          | rewrite E; clear E D ]
      end.
    all: simpl; eauto.
Qed.

(** X8.  The lists of a graph document keep their order and length: the
    decoded [vertices] and [edges] are the strings of the document, in the
    order of the document. *)
Theorem graph_lists_keep_their_order d m vs es :
  validate CGraphInfo (PDict d) = Some m →
  dict_get "vertices" d = Some (PList (PStr <$> vs)) →
  dict_get "edges" d = Some (PList (PStr <$> es)) →
  GraphInfo.vertices m = vs ∧ GraphInfo.edges m = es.
Proof.
  intros Hm Hv He. simpl in Hm. unfold validate_GraphInfo, field in Hm.
  rewrite Hv, He in Hm. simpl in Hm. rewrite !validate_strings in Hm.
  destruct (dict_get "name" d) as [x|]; [destruct (validate_str x)|];
    simpl in Hm; try done.
  all: destruct (dict_get "prefix" d) as [y|]; [destruct (validate_str y)|];
    simpl in Hm; try done.
  all: destruct (dict_get "version" d) as [z|]; [destruct (validate_str z)|];
    simpl in Hm; try done.
  all: by injection Hm as <-.
Qed.

(** X9.  The property groups of a vertex document keep their order and
    length: the i-th decoded group is the validation of the i-th item of
    the document's list, and likewise the properties within a group. *)
Theorem property_groups_keep_their_order d m l :
  validate CVertexInfo (PDict d) = Some m →
  dict_get "property_groups" d = Some (PList l) →
  Forall2 (λ x g,
             validate CPropertyGroup x = Some g
             ∧ ∀ dg ps, x = PDict dg →
                 dict_get "properties" dg = Some (PList ps) →
                 Forall2 (λ y p, validate CProperty y = Some p)
                   ps (PropertyGroup.properties g))
    l (VertexInfo.property_groups m).
Proof.
  intros Hm Hl. simpl in Hm. accepted Hm. simpl.
  match goal with
  | E : field d "property_groups" _ _ = Some _ |- _ =>
      unfold field in E; rewrite Hl in E; simpl in E;
      apply mapM_Some_1 in E
  end.
  eapply Forall2_impl; [eassumption|].
  intros x g Hg. split; [exact Hg|].
  intros dg ps -> Hps. simpl in Hg. accepted Hg. simpl.
  match goal with
  | E : field dg "properties" _ _ = Some _ |- _ =>
      unfold field in E; rewrite Hps in E; simpl in E;
      by apply mapM_Some_1 in E
  end.
Qed.

(** X10.  The three states of [is_nullable] are kept apart on decoding: a
    missing key and an explicit null both give the unset state, an explicit
    boolean gives that boolean; unset never becomes false. *)
Theorem is_nullable_keeps_three_states d m :
  validate CProperty (PDict d) = Some m →
  match dict_get "is_nullable" d with
  | None | Some PNone => Property.is_nullable m = None
  | Some (PBool b) => Property.is_nullable m = Some b
  | Some v => ∃ b, lax_bool v = Some b ∧ Property.is_nullable m = Some b
  end.
Proof.
  intros Hm. simpl in Hm. accepted Hm. simpl.
  match goal with
  | E : field d "is_nullable" _ _ = Some _ |- _ => unfold field in E
  end.
  destruct (dict_get "is_nullable" d) as [[| | | | | |]|]; simpl in *;
    try congruence.
  all: match goal with
    | E : Some <$> lax_bool ?v = Some _ |- _ =>
        destruct (lax_bool v) as [b'|] eqn:Hb; [|done];
        injection E as <-; eauto
    end.
Qed.

End Keys.

(** ** Outcomes of the two helpers *)

Section Outcomes.
Context {L : Lax} {Y : Yaml}.


(** X12.  Splitting a text at its newlines and joining the lines again
    loses nothing, blank lines and a final newline included: from a store
    that holds the lines of a text, [from_yaml] returns what decoding the
    text returns. *)
Theorem stored_lines_read_back_as_the_text cls location spark text :
  spark !! location = Some (Py.split Py.newline text) →
  Py.join Py.nl (Py.split Py.newline text) = text
  ∧ from_yaml cls location spark = decode cls text.
Proof.
  intros Hl. split; [apply join_split|].
  unfold from_yaml. by apply read_yaml_from_any_split.
Qed.

Lemma raw_text_not_nil text : raw_text text ≠ [].
Proof.
  unfold raw_text. pose proof (split_not_nil Py.newline text).
  by destruct (Py.split Py.newline text).
Qed.

Lemma width_singletons (lines : list string) :
  lines ≠ [] → width (Py.singleton <$> lines) = 1%nat.
Proof.
  induction lines as [|l [|l' ls] IH]; [done|done|].
  intros _. rewrite fmap_cons. simpl in *. rewrite IH; done.
Qed.

Lemma mapM_single_tuples lines ls :
  mapM single (Py.tuple <$> lines) = Some ls →
  Forall (λ l, String.length l = 1%nat) lines.
Proof.
  revert ls. induction lines as [|l lines IH]; intros ls; [constructor|].
  rewrite fmap_cons. cbn [mapM].
  destruct (single (Py.tuple l)) as [s|] eqn:Hs; [|done]. simpl.
  destruct (mapM single (Py.tuple <$> lines)) as [k|] eqn:Hk; [|done].
  intros _. constructor; [|by eapply IH].
  rewrite <- tuple_length. by destruct (Py.tuple l) as [|? [|]].
Qed.

Lemma mapM_single_singletons (lines : list string) :
  mapM single (Py.singleton <$> lines) = Some lines.
Proof. by apply mapM_fmap_Some. Qed.

(** X13.  The write completes only for a text all of whose lines have
    exactly one character, and for such a text it does complete.  A text
    with a longer line, an empty line, or a final newline is never
    written. *)
Theorem write_completes_iff_one_character_lines
    location cls (model : instance cls) spark text :
  encode cls model = Ok text →
  (write_yaml_to_any location cls model spark).1 = Ok ()
  ↔ Forall (λ l, String.length l = 1%nat) (Py.split Py.newline text).
Proof.
  unfold encode, write_yaml_to_any. intros ->.
  pose proof (raw_text_not_nil text) as Hnil.
  unfold createDataFrame. destruct (raw_text text) as [|r rs] eqn:Hraw; [done|].
  rewrite <- Hraw. clear Hnil. unfold save_text. simpl. split.
  - destruct (_ <$> seq 0 (width (raw_text text))) as [|c [|c' cs]];
      simpl; try done.
    destruct (mapM single (raw_text text)) as [ls|] eqn:Hls; simpl; [|done].
    intros _. by eapply mapM_single_tuples.
  - intros Hall.
    assert (raw_text text = Py.singleton <$> Py.split Py.newline text) as ->.
    { unfold raw_text. apply list_fmap_ext.
      intros i l Hin. apply tuple_singleton.
      rewrite Forall_forall in Hall. eapply Hall, list_elem_of_lookup_2, Hin. }
    rewrite width_singletons by apply split_not_nil. simpl.
    by rewrite mapM_single_singletons.
Qed.

End Outcomes.


(** ** The further properties at sample documents *)

Ltac lookups :=
  intros ?; unfold getattr; simpl; decide_keys; reflexivity.

(** X4 at the graph document [social]. *)
Lemma document_decodes_to_itself_witness :
  encode (Y := Ref.yaml) CGraphInfo Sample.social = Ok Sample.social_yaml
  ∧ safe_load (Yaml := Ref.yaml) Sample.social_yaml
    = Some (PDict Sample.social_loaded)
  ∧ decode (L := Ref.lax) (Y := Ref.yaml) CGraphInfo Sample.social_yaml
    = Ok Sample.social.
Proof.
  split; [vm_compute; reflexivity|]. split; [vm_compute; reflexivity|].
  apply (@document_decodes_to_itself Ref.lax Ref.yaml CGraphInfo
           Sample.social Sample.social_yaml Sample.social_loaded).
  - reflexivity.
  - vm_compute; reflexivity.
  - vm_compute; reflexivity.
  - lookups.
Defined.

(** X5 at the default-constructed Property. *)
Lemma property_never_decodes_to_itself_witness :
  encode (Y := Ref.yaml) CProperty Property.default
  = Ok Sample.default_property_yaml
  ∧ safe_load (Yaml := Ref.yaml) Sample.default_property_yaml
    = Some (PDict Sample.default_property_loaded)
  ∧ decode (L := Ref.lax) (Y := Ref.yaml) CProperty
      Sample.default_property_yaml
    ≠ Ok Property.default.
Proof.
  split; [vm_compute; reflexivity|]. split; [vm_compute; reflexivity|].
  apply (@property_never_decodes_to_itself Ref.lax Ref.yaml Property.default
           Sample.default_property_yaml Sample.default_property_loaded).
  - vm_compute; reflexivity.
  - vm_compute; reflexivity.
  - lookups.
Defined.

(** X6 at a graph document that is given a key [comment]. *)
Lemma undeclared_key_is_ignored_witness :
  assoc "comment" (declared_fields (L := Ref.lax) CGraphInfo) = None
  ∧ validate (L := Ref.lax) CGraphInfo
      (PDict (dict_set "comment" (PStr "draft") Sample.social_loaded))
    = validate (L := Ref.lax) CGraphInfo (PDict Sample.social_loaded)
  ∧ validate (L := Ref.lax) CGraphInfo
      (PDict (dict_del "comment" Sample.social_loaded))
    = validate (L := Ref.lax) CGraphInfo (PDict Sample.social_loaded).
Proof.
  split; [reflexivity|].
  apply (@undeclared_key_is_ignored Ref.lax CGraphInfo Sample.social_loaded
           "comment" (PStr "draft")).
  reflexivity.
Defined.

(** X8 at the graph document [social]. *)
Lemma graph_lists_keep_their_order_witness :
  validate (L := Ref.lax) CGraphInfo (PDict Sample.social_loaded)
  = Some Sample.social
  ∧ GraphInfo.vertices Sample.social = ["person"]
  ∧ GraphInfo.edges Sample.social = ["knows"].
Proof.
  split; [reflexivity|].
  apply (@graph_lists_keep_their_order Ref.lax Sample.social_loaded
           Sample.social ["person"] ["knows"]); reflexivity.
Defined.

(** X9 at a vertex document with two property groups. *)
Lemma property_groups_keep_their_order_witness :
  validate (L := Ref.lax) CVertexInfo (PDict Sample.person_loaded)
  = Some Sample.person_decoded
  ∧ Forall2 (λ x g,
               validate (L := Ref.lax) CPropertyGroup x = Some g
               ∧ ∀ dg ps, x = PDict dg →
                   dict_get "properties" dg = Some (PList ps) →
                   Forall2 (λ y p, validate (L := Ref.lax) CProperty y = Some p)
                     ps (PropertyGroup.properties g))
      Sample.person_groups (VertexInfo.property_groups Sample.person_decoded).
Proof.
  split; [reflexivity|].
  apply (@property_groups_keep_their_order Ref.lax Sample.person_loaded
           Sample.person_decoded Sample.person_groups); reflexivity.
Defined.

(** X10 at a property document with an explicit [false]. *)
Lemma is_nullable_keeps_three_states_witness :
  validate (L := Ref.lax) CProperty
    (PDict [("data_type", PStr "int64"); ("is_nullable", PBool false)])
  = Some (Property.mk "" (Member INT64) false (Some false))
  ∧ Property.is_nullable (Property.mk "" (Member INT64) false (Some false))
    = Some false.
Proof.
  split; [reflexivity|].
  apply (@is_nullable_keeps_three_states Ref.lax
           [("data_type", PStr "int64"); ("is_nullable", PBool false)]
           (Property.mk "" (Member INT64) false (Some false))).
  reflexivity.
Defined.

(** X12 at a store that holds the lines of [social_yaml]. *)
Lemma stored_lines_read_back_as_the_text_witness :
  Py.join Py.nl (Py.split Py.newline Sample.social_yaml) = Sample.social_yaml
  ∧ from_yaml (L := Ref.lax) (Y := Ref.yaml) CGraphInfo Sample.location
      {[Sample.location := Py.split Py.newline Sample.social_yaml]}
    = decode (L := Ref.lax) (Y := Ref.yaml) CGraphInfo Sample.social_yaml.
Proof.
  apply (@stored_lines_read_back_as_the_text Ref.lax Ref.yaml CGraphInfo
           Sample.location
           {[Sample.location := Py.split Py.newline Sample.social_yaml]}
           Sample.social_yaml).
  reflexivity.
Defined.

(** X13 at the graph document [social]. *)
Lemma write_completes_iff_one_character_lines_witness :
  encode (Y := Ref.yaml) CGraphInfo Sample.social = Ok Sample.social_yaml
  ∧ ((write_yaml_to_any (Y := Ref.yaml) Sample.location CGraphInfo
        Sample.social ∅).1 = Ok ()
     ↔ Forall (λ l, String.length l = 1%nat)
         (Py.split Py.newline Sample.social_yaml)).
Proof.
  split; [vm_compute; reflexivity|].
  apply (@write_completes_iff_one_character_lines Ref.yaml Sample.location
           CGraphInfo Sample.social ∅ Sample.social_yaml).
  vm_compute; reflexivity.
Defined.

(** X14 at a graph document from which [version] is dropped. *)
Lemma validate_omitted_witness :
  validate (L := Ref.lax) CGraphInfo (PDict Sample.social_loaded)
  = Some Sample.social
  ∧ ∃ m',
      validate (L := Ref.lax) CGraphInfo
        (PDict (dict_del "version" Sample.social_loaded)) = Some m'
      ∧ getattr CGraphInfo m' "version"
        = getattr CGraphInfo (default CGraphInfo) "version"
      ∧ ∀ k', k' ≠ "version" →
          getattr CGraphInfo m' k' = getattr CGraphInfo Sample.social k'.
Proof.
  split; [reflexivity|].
  apply (@validate_omitted Ref.lax CGraphInfo Sample.social_loaded
           Sample.social "version").
  reflexivity.
Defined.
